(** * Storage service (src/services/supabaseStorageService.ts)

    A shallow embedding of the [SupabaseStorageService] class: key
    construction, validation, and the translation of the storage client's
    replies into results and raised errors.

    Conventions.
    - A JavaScript string is a [string]: one [ascii] per UTF-16 code unit,
      for code units 0..255.  Where a property is about every string, a
      string is the list of its code units ([list N]) and the runtime's
      [toLowerCase], whose case tables are not part of the sources, is a
      parameter.
    - A JavaScript number that counts bytes, milliseconds or seconds is a [Z].
    - An [async] method is a computation in the monad [M]: it reads the
      replies of the storage backend, may raise, and leaves a trace of the
      console lines it wrote and the requests it sent. *)

From Stdlib Require Import String Ascii List ZArith Bool Lia DecimalString.
Import ListNotations.
Open Scope string_scope.
Open Scope Z_scope.

(** ** JavaScript string and array primitives used by the service *)

Module JS.

Definition code (c : ascii) : N := N_of_ascii c.

Definition in_range (lo hi : N) (c : ascii) : bool :=
  (N.leb lo (code c) && N.leb (code c) hi)%bool.

(** [String.prototype.toLowerCase] on one code unit of the range 0..255:
    A-Z, and the capital letters of U+00C0..U+00DE other than the
    multiplication sign U+00D7, move up by 32; every other unit is kept. *)
Definition lower_unit (c : ascii) : ascii :=
  if in_range 65 90 c then ascii_of_N (code c + 32)
  else if (in_range 192 222 c && negb (N.eqb (code c) 215))%bool
       then ascii_of_N (code c + 32)
       else c.

Fixpoint toLowerCase (s : string) : string :=
  match s with
  | EmptyString => EmptyString
  | String c s' => String (lower_unit c) (toLowerCase s')
  end.

(** The character class [a-z0-9-]. *)
Definition in_class_az09_hyphen (c : ascii) : bool :=
  (in_range 97 122 c || in_range 48 57 c || N.eqb (code c) 45)%bool.

(** [s.replace(/[^a-z0-9-]/g, '-')]: a global replace of a one-unit
    pattern, so every match is replaced on its own. *)
Fixpoint replace_not_az09_hyphen (s : string) : string :=
  match s with
  | EmptyString => EmptyString
  | String c s' =>
      String (if in_class_az09_hyphen c then c else "-"%char)
             (replace_not_az09_hyphen s')
  end.

(** [s.includes(sub)] *)
Fixpoint includes (s sub : string) : bool :=
  (String.prefix sub s ||
   match s with
   | EmptyString => false
   | String _ s' => includes s' sub
   end)%bool.

(** [arr.includes(x)] on an array of strings *)
Definition array_includes (arr : list string) (x : string) : bool :=
  existsb (String.eqb x) arr.

(** [arr.join(sep)] *)
Definition join (sep : string) (arr : list string) : string :=
  String.concat sep arr.

(** [s.split(sep)] for a separator of one code unit.  The result is never
    the empty array. *)
Fixpoint split (sep : ascii) (s : string) : list string :=
  match s with
  | EmptyString => [EmptyString]
  | String c s' =>
      if Ascii.eqb c sep then EmptyString :: split sep s'
      else match split sep s' with
           | [] => [String c EmptyString]
           | piece :: rest => String c piece :: rest
           end
  end.

(** [arr.pop()]: the last element, [None] standing for [undefined]. *)
Fixpoint pop (arr : list string) : option string :=
  match arr with
  | [] => None
  | [x] => Some x
  | _ :: rest => pop rest
  end.

(** A value interpolated into a template literal. *)
Definition interpolate (v : option string) : string :=
  match v with
  | Some s => s
  | None => "undefined"
  end.

(** [s.lastIndexOf(c)] for a one-unit search string; -1 when absent. *)
Fixpoint lastIndexOf_from (c : ascii) (s : string) (i acc : Z) : Z :=
  match s with
  | EmptyString => acc
  | String a s' =>
      lastIndexOf_from c s' (i + 1) (if Ascii.eqb a c then i else acc)
  end.

Definition lastIndexOf (s : string) (c : ascii) : Z :=
  lastIndexOf_from c s 0 (-1).

Definition clamp (len i : Z) : Z := Z.max 0 (Z.min i len).

(** [s.substring(start, end)]: both indices are clamped to [0, length]
    and swapped when out of order; an absent [end] is the length. *)
Definition substring (s : string) (start : Z) (end_ : option Z) : string :=
  let len := Z.of_nat (String.length s) in
  let a := clamp len start in
  let b := match end_ with Some e => clamp len e | None => len end in
  String.substring (Z.to_nat (Z.min a b))
                   (Z.to_nat (Z.max a b - Z.min a b)) s.

(** An integral number interpolated into a template literal. *)
Definition show_int (n : Z) : string :=
  NilZero.string_of_int (Z.to_int n).

End JS.

(** The code unit [c] does not occur in [s]. *)
Definition no_unit (c : ascii) (s : string) : Prop :=
  ~ In c (list_ascii_of_string s).

(** ** Key construction *)

(** [projectName.toLowerCase().replace(/[^a-z0-9-]/g, '-')], as written in
    both [uploadFile] and [listProjectFiles]. *)
Definition sanitizeProjectName (projectName : string) : string :=
  JS.replace_not_az09_hyphen (JS.toLowerCase projectName).

(** *** Project names with any code unit *)

(** The code units of a string of the range 0..255. *)
Definition units_of_string (s : string) : list N :=
  map N_of_ascii (list_ascii_of_string s).

(** The character class [a-z0-9-] on a code unit. *)
Definition unit_in_class (u : N) : bool :=
  ((N.leb 97 u && N.leb u 122) || (N.leb 48 u && N.leb u 57)
   || N.eqb u 45)%bool.

(** [s.replace(/[^a-z0-9-]/g, '-')] on code units: the pattern has no [u]
    flag and matches one code unit at a time. *)
Fixpoint replace_units (s : list N) : list N :=
  match s with
  | [] => []
  | u :: s' => (if unit_in_class u then u else 45%N) :: replace_units s'
  end.

(** [projectName.toLowerCase().replace(/[^a-z0-9-]/g, '-')] for a project
    name of any code units.  [toLowerCase] is the runtime's: it may change
    the number of code units (U+0130 becomes two) and may map a unit above
    255 to a letter (U+212A becomes k). *)
Definition sanitizeUnits (toLowerCase : list N -> list N)
    (projectName : list N) : list N :=
  replace_units (toLowerCase projectName).

(** ** Data model *)

Record UploadResult := {
  url : string;
  key : string;
  bucket : string;
  size : Z
}.

Record FileUploadOptions := {
  folder : option string;
  allowedTypes : option (list string);
  maxSize : option Z;
  projectName : option string
}.

(** The fields of [Express.Multer.File] the service reads. *)
Record MulterFile := {
  originalname : string;
  mimetype : string;
  file_size : Z;
  buffer : list Byte.byte
}.

(** A listing entry of the storage client ([FileObject]). *)
Record FileMeta := {
  meta_size : option Z;
  meta_mimetype : option string
}.

Record FileObject := {
  name : string;
  updated_at : string;
  metadata : option FileMeta
}.

(** The object [getFileMetadata] returns. *)
Record FileMetadata := {
  md_name : string;
  md_size : option Z;
  md_lastModified : string;
  md_contentType : option string
}.

(** An element of the array [listProjectFiles] returns. *)
Record ListedFile := {
  Key : string;
  Size : option Z;
  LastModified : string
}.

(** ** Raised values *)

Inductive thrown :=
| HttpError (statusCode : Z) (message : string)
| NativeError (kind message : string)
| NonError (description : string).

(** Modelled from the spec: [createError] of ../middleware/errorHandler.js is
    not part of the sources.  Errors raised to callers "carry an HTTP-style
    status code and message", and [uploadFile] tells its own validation
    errors apart with [instanceof Error] and their message, so the value
    built is an [Error] whose [message] is the second argument. *)
Definition createError (status : Z) (msg : string) : thrown :=
  HttpError status msg.

Definition instanceof_Error (e : thrown) : bool :=
  match e with
  | HttpError _ _ | NativeError _ _ => true
  | NonError _ => false
  end.

Definition error_message (e : thrown) : string :=
  match e with
  | HttpError _ m | NativeError _ m => m
  | NonError _ => EmptyString
  end.

(** ** The storage client *)

Record StorageError := { se_message : string }.

Record UploadFileOptions := {
  contentType : string;
  cacheControl : string;
  upsert : bool
}.

Record SortBy := { column : string; order : string }.

Record SearchOptions := {
  limit : option Z;
  sortBy : option SortBy;
  search : option string
}.

Record UploadData := { uploaded_path : string }.
Record SignedUrlData := { signedUrl : string }.

(** A request sent to the backend, with the arguments the service passed. *)
Inductive request :=
| Upload (bucketId path : string) (body : list Byte.byte)
         (opts : UploadFileOptions)
| Remove (bucketId : string) (paths : list string)
| CreateSignedUploadUrl (bucketId path : string)
| CreateSignedUrl (bucketId path : string) (expiresIn : Z)
| ListObjects (bucketId path : string) (opts : SearchOptions).

(** What awaiting a client call gives: the promise resolves to an object
    [{ data, error }], or it rejects. *)
Inductive reply (A : Type) :=
| Resolved (data : option A) (error : option StorageError)
| Rejected (e : thrown).
Arguments Resolved {A} data error.
Arguments Rejected {A} e.

(** Everything outside the service that one call can observe: the replies
    of the backend, the clock, the random source and the number printer. *)
Record World := {
  reply_upload :
    string -> string -> list Byte.byte -> UploadFileOptions -> reply UploadData;
  reply_remove : string -> list string -> reply (list FileObject);
  reply_createSignedUploadUrl : string -> string -> reply SignedUrlData;
  reply_createSignedUrl : string -> string -> Z -> reply SignedUrlData;
  reply_list : string -> string -> SearchOptions -> reply (list FileObject);
  (** [Date.now()] *)
  Date_now : Z;
  (** [Math.random().toString(36)], for instance "0.4fzyo82mvyr" *)
  Math_random_toString36 : string;
  (** the text of [a / b] in a template literal *)
  quotient_toString : Z -> Z -> string
}.

(** The singleton's fields.
    Modelled from the spec: the client's URL builder is third-party code;
    it "only performs string formatting", so it is a function of the bucket
    and the key. *)
Record Service := {
  bucketName : string;
  publicUrl : string -> string -> string
}.

(** ** Effects *)

Inductive event :=
| ConsoleLog (label : string)
| ConsoleError (label : string)
| Sent (r : request).

Inductive completion (A : Type) :=
| Returned (a : A)
| Threw (e : thrown).
Arguments Returned {A} a.
Arguments Threw {A} e.

Definition M (A : Type) : Type := World -> completion A * list event.

Definition ret {A} (a : A) : M A := fun _ => (Returned a, []).

Definition bind {A B} (m : M A) (f : A -> M B) : M B :=
  fun w =>
    match m w with
    | (Returned a, t) => let (r, t') := f a w in (r, (t ++ t')%list)
    | (Threw e, t) => (Threw e, t)
    end.

Definition throw {A} (e : thrown) : M A := fun _ => (Threw e, []).

Definition try_catch {A} (body : M A) (handler : thrown -> M A) : M A :=
  fun w =>
    match body w with
    | (Returned a, t) => (Returned a, t)
    | (Threw e, t) => let (r, t') := handler e w in (r, (t ++ t')%list)
    end.

Definition emit (e : event) : M unit := fun _ => (Returned tt, [e]).
Definition console_log (label : string) : M unit := emit (ConsoleLog label).
Definition console_error (label : string) : M unit := emit (ConsoleError label).

Definition ask {A} (f : World -> A) : M A := fun w => (Returned (f w), []).

(** [if (c) throw e;] *)
Definition throw_if (c : bool) (e : thrown) : M unit :=
  if c then throw e else ret tt.

(** [await] of a client call: the request goes out, then the promise
    resolves or rejects. *)
Definition await {A} (r : request) (answer : World -> reply A)
  : M (option A * option StorageError) :=
  fun w =>
    match answer w with
    | Resolved d e => (Returned (d, e), [Sent r])
    | Rejected x => (Threw x, [Sent r])
    end.

Declare Scope monad_scope.
Delimit Scope monad_scope with monad.
Notation "x <- m ;; k" := (bind m (fun x => k))
  (at level 61, m at next level, right associativity) : monad_scope.
Notation "' pat <- m ;; k" := (bind m (fun x => match x with pat => k end))
  (at level 61, pat pattern, m at next level, right associativity)
  : monad_scope.
Notation "m ;; k" := (bind m (fun _ => k))
  (at level 61, right associativity) : monad_scope.
Open Scope monad_scope.

(** The requests of a trace, in order. *)
Fixpoint requests (t : list event) : list request :=
  match t with
  | [] => []
  | Sent r :: t' => r :: requests t'
  | _ :: t' => requests t'
  end.

(** ** The service *)

Definition is_some {A} (o : option A) : bool :=
  match o with Some _ => true | None => false end.

Definition or_default {A} (d : A) (o : option A) : A :=
  match o with Some a => a | None => d end.

(** Truthiness of an optional string: [undefined] and the empty string are
    falsy. *)
Definition truthy (o : option string) : option string :=
  match o with
  | Some EmptyString => None
  | other => other
  end.

Definition default_allowedTypes : list string :=
  ["image/jpeg"; "image/png"; "image/gif"; "image/webp"].

Definition default_maxSize : Z := 5 * 1024 * 1024.

(** [`${timestamp}-${randomString}.${fileExtension}`] *)
Definition fileNameFor (timestamp : Z) (random36 originalname : string)
  : string :=
  let randomString := JS.substring random36 2 (Some 15) in
  let fileExtension := JS.pop (JS.split "."%char originalname) in
  JS.show_int timestamp ++ "-" ++ randomString ++ "."
    ++ JS.interpolate fileExtension.

Definition keyFor (projectName : option string) (folder fileName : string)
  : string :=
  match truthy projectName with
  | Some p => sanitizeProjectName p ++ "/" ++ folder ++ "/" ++ fileName
  | None => folder ++ "/" ++ fileName
  end.

Definition uploadFile (svc : Service) (file : MulterFile)
    (options : FileUploadOptions) : M UploadResult :=
  try_catch
    (console_log "Starting Supabase Storage upload..." ;;
     console_log "File name:" ;;
     console_log "File size:" ;;
     console_log "File mimetype:" ;;
     let folder := or_default "uploads" (folder options) in
     let allowedTypes := or_default default_allowedTypes (allowedTypes options) in
     let maxSize := or_default default_maxSize (maxSize options) in
     let projectName := projectName options in
     throw_if (negb (JS.array_includes allowedTypes (mimetype file)))
       (createError 400
          ("Invalid file type. Allowed types: " ++ JS.join ", " allowedTypes)) ;;
     show <- ask quotient_toString ;;
     throw_if (file_size file >? maxSize)
       (createError 400
          ("File too large. Maximum size: " ++ show maxSize (1024 * 1024)
             ++ "MB")) ;;
     timestamp <- ask Date_now ;;
     random36 <- ask Math_random_toString36 ;;
     let fileName := fileNameFor timestamp random36 (originalname file) in
     let key := keyFor projectName folder fileName in
     console_log "Uploading to bucket:" ;;
     console_log "Key:" ;;
     let opts := {| contentType := mimetype file;
                    cacheControl := "3600";
                    upsert := false |} in
     '(data, error) <-
        await (Upload (bucketName svc) key (buffer file) opts)
              (fun w => reply_upload w (bucketName svc) key (buffer file) opts) ;;
     match error with
     | Some err =>
         console_error "Supabase upload error:" ;;
         throw (createError 500 ("Upload failed: " ++ se_message err))
     | None => ret tt
     end ;;
     console_log "Upload successful!" ;;
     let uploadResult := {| url := publicUrl svc (bucketName svc) key;
                            key := key;
                            bucket := bucketName svc;
                            size := file_size file |} in
     console_log "Upload completed successfully:" ;;
     ret uploadResult)
    (fun error =>
       console_error "Supabase Storage upload error:" ;;
       if (instanceof_Error error &&
           (JS.includes (error_message error) "Invalid file type" ||
            JS.includes (error_message error) "File too large"))%bool
       then throw error
       else
         let errorMessage :=
           if instanceof_Error error then error_message error
           else "Unknown error" in
         throw (createError 500 ("Failed to upload file: " ++ errorMessage))).

Definition deleteFile (svc : Service) (key : string) : M unit :=
  try_catch
    ('(_, error) <-
        await (Remove (bucketName svc) [key])
              (fun w => reply_remove w (bucketName svc) [key]) ;;
     match error with
     | Some err =>
         console_error "Supabase delete error:" ;;
         throw (createError 500 ("Failed to delete file: " ++ se_message err))
     | None => ret tt
     end)
    (fun _ =>
       console_error "Supabase Storage delete error:" ;;
       throw (createError 500 "Failed to delete file from storage")).

(** [data.signedUrl]: reading a property of [null] raises a [TypeError]. *)
Definition read_signedUrl (data : option SignedUrlData) : M string :=
  match data with
  | Some d => ret (signedUrl d)
  | None =>
      throw (NativeError "TypeError"
               "Cannot read properties of null (reading 'signedUrl')")
  end.

Definition getSignedUploadUrl (svc : Service) (key contentType : string)
    (expiresIn : option Z) : M string :=
  let expiresIn := or_default 3600 expiresIn in
  try_catch
    ('(data, error) <-
        await (CreateSignedUploadUrl (bucketName svc) key)
              (fun w => reply_createSignedUploadUrl w (bucketName svc) key) ;;
     match error with
     | Some err =>
         throw (createError 500
                  ("Failed to generate signed URL: " ++ se_message err))
     | None => ret tt
     end ;;
     read_signedUrl data)
    (fun _ =>
       console_error "Supabase signed URL error:" ;;
       throw (createError 500 "Failed to generate signed upload URL")).

Definition getSignedDownloadUrl (svc : Service) (key : string)
    (expiresIn : option Z) : M string :=
  let expiresIn := or_default 3600 expiresIn in
  try_catch
    ('(data, error) <-
        await (CreateSignedUrl (bucketName svc) key expiresIn)
              (fun w => reply_createSignedUrl w (bucketName svc) key expiresIn) ;;
     match error with
     | Some err =>
         throw (createError 500
                  ("Failed to generate signed URL: " ++ se_message err))
     | None => ret tt
     end ;;
     read_signedUrl data)
    (fun _ =>
       console_error "Supabase signed URL error:" ;;
       throw (createError 500 "Failed to generate signed download URL")).

(** [key.substring(0, key.lastIndexOf('/'))] *)
Definition parentOf (key : string) : string :=
  JS.substring key 0 (Some (JS.lastIndexOf key "/"%char)).

(** [key.substring(key.lastIndexOf('/') + 1)] *)
Definition leafOf (key : string) : string :=
  JS.substring key (JS.lastIndexOf key "/"%char + 1) None.

Definition search_for (leaf : string) : SearchOptions :=
  {| limit := None; sortBy := None; search := Some leaf |}.

(** The value of [data && data.length > 0]. *)
Inductive null_or_boolean :=
| JsNull
| JsBoolean (b : bool).

Definition fileExists (svc : Service) (key : string) : M null_or_boolean :=
  try_catch
    ('(data, error) <-
        await (ListObjects (bucketName svc) (parentOf key)
                 (search_for (leafOf key)))
              (fun w => reply_list w (bucketName svc) (parentOf key)
                          (search_for (leafOf key))) ;;
     if is_some error then ret (JsBoolean false)
     else
       ret match data with
           | None => JsNull
           | Some files => JsBoolean (Z.of_nat (List.length files) >? 0)
           end)
    (fun _ => ret (JsBoolean false)).

Definition getFileMetadata (svc : Service) (key : string) : M FileMetadata :=
  try_catch
    (let folder := parentOf key in
     let fileName := leafOf key in
     '(data, error) <-
        await (ListObjects (bucketName svc) folder (search_for fileName))
              (fun w => reply_list w (bucketName svc) folder
                          (search_for fileName)) ;;
     match (if is_some error then None else data) with
     | None | Some [] => throw (createError 404 "File not found")
     | Some (fileInfo :: _) =>
         ret {| md_name := name fileInfo;
                md_size := match metadata fileInfo with
                           | Some m => meta_size m
                           | None => None
                           end;
                md_lastModified := updated_at fileInfo;
                md_contentType := match metadata fileInfo with
                                  | Some m => meta_mimetype m
                                  | None => None
                                  end |}
     end)
    (fun _ =>
       console_error "Supabase metadata error:" ;;
       throw (createError 500 "Failed to get file metadata")).

Definition prefixFor (projectName : string) (folder : option string)
  : string :=
  let sanitizedProjectName := sanitizeProjectName projectName in
  match truthy folder with
  | Some f => sanitizedProjectName ++ "/" ++ f
  | None => sanitizedProjectName
  end.

Definition list_options : SearchOptions :=
  {| limit := Some 1000;
     sortBy := Some {| column := "name"; order := "asc" |};
     search := None |}.

Definition listed (prefix : string) (file : FileObject) : ListedFile :=
  {| Key := prefix ++ "/" ++ name file;
     Size := match metadata file with
             | Some m => meta_size m
             | None => None
             end;
     LastModified := updated_at file |}.

Definition listProjectFiles (svc : Service) (projectName : string)
    (folder : option string) : M (list ListedFile) :=
  try_catch
    (let prefix := prefixFor projectName folder in
     '(data, error) <-
        await (ListObjects (bucketName svc) prefix list_options)
              (fun w => reply_list w (bucketName svc) prefix list_options) ;;
     match error with
     | Some err =>
         console_error "Supabase list files error:" ;;
         throw (createError 500 ("Failed to list files: " ++ se_message err))
     | None => ret tt
     end ;;
     ret (map (listed prefix) (or_default [] data)))
    (fun _ =>
       console_error "Supabase Storage list files error:" ;;
       throw (createError 500 "Failed to list project files")).

(** [getPublicUrl] is not [async]: it calls the client's URL builder and
    returns its string. *)
Definition getPublicUrl (svc : Service) (key : string) : M string :=
  ret (publicUrl svc (bucketName svc) key).

(** The four console lines [uploadFile] starts with. *)
Definition preamble : list event :=
  [ConsoleLog "Starting Supabase Storage upload...";
   ConsoleLog "File name:"; ConsoleLog "File size:";
   ConsoleLog "File mimetype:"].

(** ** The no-op folder methods *)

Definition createProjectFolders (svc : Service) (projectName : string)
  : M unit :=
  console_log "Project folders are virtual in Supabase Storage:".

Definition createVideoFolder (svc : Service) (projectName playbackId : string)
  : M unit :=
  console_log "Video folders are virtual in Supabase Storage:".

(** ** Module configuration *)

(** The three variables the module reads from [process.env]; [None] is
    [undefined]. *)
Record Env := {
  env_SUPABASE_URL : option string;
  env_SUPABASE_SERVICE_ROLE_KEY : option string;
  env_SUPABASE_BUCKET_NAME : option string
}.

Record Config := {
  SUPABASE_URL : string;
  SUPABASE_SERVICE_ROLE_KEY : string;
  SUPABASE_BUCKET_NAME : string
}.

(** The options the constructor passes to [createClient]. *)
Record AuthOptions := { autoRefreshToken : bool; persistSession : bool }.
Record ClientOptions := { auth : AuthOptions }.

Definition client_options : ClientOptions :=
  {| auth := {| autoRefreshToken := false; persistSession := false |} |}.

(** [createClient] is the third-party factory: given the URL, the key and
    the options it returns a client or raises (for instance on a URL it
    does not accept).  Of a client the service keeps, besides the network
    calls whose replies are in [World], the URL builder. *)
Definition ClientFactory : Type :=
  string -> string -> ClientOptions -> completion (string -> string -> string).

(** The constructor. *)
Definition new_SupabaseStorageService (createClient : ClientFactory)
    (cfg : Config) : completion Service :=
  match createClient (SUPABASE_URL cfg) (SUPABASE_SERVICE_ROLE_KEY cfg)
          client_options with
  | Returned client =>
      Returned {| bucketName := SUPABASE_BUCKET_NAME cfg;
                  publicUrl := client |}
  | Threw e => Threw e
  end.

(** [getInstance]; the static field [instance] goes in and comes out. *)
Definition getInstance (createClient : ClientFactory) (cfg : Config)
    (instance : option Service) : completion Service * option Service :=
  match instance with
  | Some svc => (Returned svc, instance)
  | None =>
      match new_SupabaseStorageService createClient cfg with
      | Returned svc => (Returned svc, Some svc)
      | Threw e => (Threw e, None)
      end
  end.

(** The statements at the top of the module, run once when it is loaded:
    the two checks, the three console lines and, last, the default export
    [SupabaseStorageService.getInstance()], evaluated while the static field
    is still unset.  The value is the exported instance. *)
Definition load_module (createClient : ClientFactory) (env : Env)
  : completion Service * list event :=
  let bucket_name :=
    or_default "project-assets" (truthy (env_SUPABASE_BUCKET_NAME env)) in
  match truthy (env_SUPABASE_URL env) with
  | None =>
      (Threw (NativeError "Error"
                "SUPABASE_URL environment variable is required"), [])
  | Some supabase_url =>
      match truthy (env_SUPABASE_SERVICE_ROLE_KEY env) with
      | None =>
          (Threw (NativeError "Error"
                    "SUPABASE_SERVICE_ROLE_KEY environment variable is required"),
           [])
      | Some service_key =>
          let cfg := {| SUPABASE_URL := supabase_url;
                        SUPABASE_SERVICE_ROLE_KEY := service_key;
                        SUPABASE_BUCKET_NAME := bucket_name |} in
          (fst (getInstance createClient cfg None),
           [ConsoleLog "Configuring Supabase Storage...";
            ConsoleLog "Supabase URL:";
            ConsoleLog "Bucket Name:"])
      end
  end.

(** ** Bucket provisioning *)

Record Bucket := { bucket_name : string }.

Record BucketOptions := {
  public : bool;
  fileSizeLimit : Z;
  allowedMimeTypes : list string
}.

Record CreatedBucket := { created_name : string }.

Inductive bucket_request :=
| ListBuckets
| CreateBucket (id : string) (opts : BucketOptions).

Inductive bucket_event :=
| BucketLog (text : string)
| BucketError (label : string)
| BucketSent (r : bucket_request).

(** The replies of the backend to the two bucket calls. *)
Record BucketWorld := {
  reply_listBuckets : reply (list Bucket);
  reply_createBucket : string -> BucketOptions -> reply CreatedBucket
}.

Definition B (A : Type) : Type :=
  BucketWorld -> completion A * list bucket_event.

Definition b_ret {A} (a : A) : B A := fun _ => (Returned a, []).

Definition b_bind {A C} (m : B A) (f : A -> B C) : B C :=
  fun w =>
    match m w with
    | (Returned a, t) => let (r, t') := f a w in (r, (t ++ t')%list)
    | (Threw e, t) => (Threw e, t)
    end.

Definition b_try_catch {A} (body : B A) (handler : thrown -> B A) : B A :=
  fun w =>
    match body w with
    | (Returned a, t) => (Returned a, t)
    | (Threw e, t) => let (r, t') := handler e w in (r, (t ++ t')%list)
    end.

Definition b_emit (e : bucket_event) : B unit := fun _ => (Returned tt, [e]).

Definition b_await {A} (r : bucket_request) (answer : BucketWorld -> reply A)
  : B (option A * option StorageError) :=
  fun w =>
    match answer w with
    | Resolved d e => (Returned (d, e), [BucketSent r])
    | Rejected x => (Threw x, [BucketSent r])
    end.

Definition bucket_options : BucketOptions :=
  {| public := true;
     fileSizeLimit := 52428800;
     allowedMimeTypes :=
       ["image/jpeg"; "image/png"; "image/gif"; "image/webp";
        "video/mp4"; "video/webm"; "video/quicktime"] |}.

(** [buckets?.some(bucket => bucket.name === this.bucketName)]; [None] is
    [undefined]. *)
Definition some_named (buckets : option (list Bucket)) (n : string)
  : option bool :=
  match buckets with
  | Some bs => Some (existsb (fun b => String.eqb (bucket_name b) n) bs)
  | None => None
  end.

Definition initializeBucket (svc : Service) : B unit :=
  b_try_catch
    (b_bind (b_await ListBuckets reply_listBuckets) (fun '(buckets, listError) =>
     if is_some listError
     then b_emit (BucketError "Error listing buckets:")
     else
       let bucketExists := some_named buckets (bucketName svc) in
       if negb (or_default false bucketExists)
       then
         b_bind (b_emit (BucketLog ("Creating bucket: " ++ bucketName svc)))
           (fun _ =>
         b_bind (b_await (CreateBucket (bucketName svc) bucket_options)
                   (fun w => reply_createBucket w (bucketName svc)
                               bucket_options))
           (fun '(_, createError) =>
         if is_some createError
         then b_emit (BucketError "Error creating bucket:")
         else b_emit (BucketLog ("Bucket " ++ bucketName svc
                                   ++ " created successfully"))))
       else b_emit (BucketLog ("Bucket " ++ bucketName svc
                                 ++ " already exists"))))
    (fun _ => b_emit (BucketError "Error initializing bucket:")).

Fixpoint bucket_requests (t : list bucket_event) : list bucket_request :=
  match t with
  | [] => []
  | BucketSent r :: t' => r :: bucket_requests t'
  | _ :: t' => bucket_requests t'
  end.

(** ** Observations on requests *)

(** The bucket a request addresses. *)
Definition bucket_of (r : request) : string :=
  match r with
  | Upload b _ _ _ | Remove b _ | CreateSignedUploadUrl b _
  | CreateSignedUrl b _ _ | ListObjects b _ _ => b
  end.

(** A trace with at most one request, and none to another bucket than the
    service's. *)
Definition single_tenant (svc : Service) (t : list event) : Prop :=
  (List.length (requests t) <= 1)%nat
  /\ Forall (fun r => bucket_of r = bucketName svc) (requests t).

(** ** Sample inputs *)

Definition sample_service : Service :=
  {| bucketName := "project-assets";
     publicUrl := fun b k =>
       "https://demo.supabase.co/storage/v1/object/public/" ++ b ++ "/" ++ k |}.

Definition sample_object (n : string) : FileObject :=
  {| name := n;
     updated_at := "2024-01-01T00:00:00Z";
     metadata := Some {| meta_size := Some 10;
                         meta_mimetype := Some "image/png" |} |}.

(** A backend that accepts every request and lists [files] everywhere. *)
Definition world_listing (files : list FileObject) : World :=
  {| reply_upload := fun _ k _ _ =>
       Resolved (Some {| uploaded_path := k |}) None;
     reply_remove := fun _ _ => Resolved (Some []) None;
     reply_createSignedUploadUrl := fun _ k =>
       Resolved (Some {| signedUrl := "https://signed/" ++ k |}) None;
     reply_createSignedUrl := fun _ k _ =>
       Resolved (Some {| signedUrl := "https://signed/" ++ k |}) None;
     reply_list := fun _ _ _ => Resolved (Some files) None;
     Date_now := 1700000000000;
     Math_random_toString36 := "0.4fzyo82mvyr";
     quotient_toString := fun a b => JS.show_int (a / b) |}.

(** A backend that answers every request with the error [msg]. *)
Definition world_failing (msg : string) : World :=
  let err := Some {| se_message := msg |} in
  {| reply_upload := fun _ _ _ _ => Resolved None err;
     reply_remove := fun _ _ => Resolved None err;
     reply_createSignedUploadUrl := fun _ _ => Resolved None err;
     reply_createSignedUrl := fun _ _ _ => Resolved None err;
     reply_list := fun _ _ _ => Resolved None err;
     Date_now := 1700000000000;
     Math_random_toString36 := "0.4fzyo82mvyr";
     quotient_toString := fun a b => JS.show_int (a / b) |}.

(** A backend that cannot be reached: every promise rejects. *)
Definition world_unreachable : World :=
  let down := NativeError "TypeError" "fetch failed" in
  {| reply_upload := fun _ _ _ _ => Rejected down;
     reply_remove := fun _ _ => Rejected down;
     reply_createSignedUploadUrl := fun _ _ => Rejected down;
     reply_createSignedUrl := fun _ _ _ => Rejected down;
     reply_list := fun _ _ _ => Rejected down;
     Date_now := 1700000000000;
     Math_random_toString36 := "0.4fzyo82mvyr";
     quotient_toString := fun a b => JS.show_int (a / b) |}.

Definition no_options : FileUploadOptions :=
  {| folder := None; allowedTypes := None; maxSize := None;
     projectName := None |}.

Definition sample_file (fname mime : string) (bytes : Z) : MulterFile :=
  {| originalname := fname; mimetype := mime; file_size := bytes;
     buffer := [] |}.

(** A backend that holds the buckets [names] and accepts a creation. *)
Definition buckets_world (names : list string) : BucketWorld :=
  {| reply_listBuckets :=
       Resolved (Some (map (fun n => {| bucket_name := n |}) names)) None;
     reply_createBucket := fun n _ =>
       Resolved (Some {| created_name := n |}) None |}.

Definition sample_env : Env :=
  {| env_SUPABASE_URL := Some "https://demo.supabase.co";
     env_SUPABASE_SERVICE_ROLE_KEY := Some "service-role-key";
     env_SUPABASE_BUCKET_NAME := Some "" |}.

(** A factory that accepts the URLs that start with "http". *)
Definition sample_createClient : ClientFactory :=
  fun u _ _ =>
    if String.prefix "http" u
    then Returned (fun b k =>
                     u ++ "/storage/v1/object/public/" ++ b ++ "/" ++ k)
    else Threw (NativeError "Error" "Invalid supabaseUrl").

(** A lowering function for examples: the runtime's on the code units
    0..255, on U+0130 (two units: i and U+0307) and on U+212A (k); the other
    units are kept. *)
Definition sample_lower_unit (u : N) : list N :=
  if N.ltb u 256 then [N_of_ascii (JS.lower_unit (ascii_of_N u))]
  else if N.eqb u 304 then [105; 775]%N
  else if N.eqb u 8490 then [107]%N
  else [u].

Definition sample_toLowerCase (s : list N) : list N :=
  flat_map sample_lower_unit s.

(** * Properties *)

(** ** Strings *)

Lemma prefix_app p r : String.prefix p (p ++ r) = true.
Proof.
  induction p as [|c p IH]; simpl.
  - now destruct r.
  - destruct (ascii_dec c c) as [_|ne]; [exact IH | now destruct ne].
Qed.

Lemma includes_prefix p r : JS.includes (p ++ r) p = true.
Proof.
  destruct p as [|c p]; [now destruct r|].
  change ((String c p ++ r)%string) with (String c (p ++ r)).
  unfold JS.includes; fold JS.includes.
  change (String c (p ++ r)) with ((String c p ++ r)%string).
  now rewrite prefix_app.
Qed.

Lemma sanitize_in_class s :
  Forall (fun c => JS.in_class_az09_hyphen c = true)
         (list_ascii_of_string (sanitizeProjectName s)).
Proof.
  unfold sanitizeProjectName.
  induction s as [|a s IH]; simpl; constructor; [|exact IH].
  destruct (JS.in_class_az09_hyphen (JS.lower_unit a)) eqn:E;
    [exact E | reflexivity].
Qed.

Lemma no_unit_cons c a s :
  no_unit c (String a s) -> Ascii.eqb a c = false /\ no_unit c s.
Proof.
  unfold no_unit; simpl; intros H; split.
  - apply Ascii.eqb_neq; intros ->; apply H; now left.
  - intros I; apply H; now right.
Qed.

Lemma split_no_sep c s : no_unit c s -> JS.split c s = [s].
Proof.
  induction s as [|a s IH]; intros H; [reflexivity|].
  apply no_unit_cons in H as [E H]; simpl.
  now rewrite E, (IH H).
Qed.

Lemma lastIndexOf_from_absent c s : forall i acc,
  no_unit c s -> JS.lastIndexOf_from c s i acc = acc.
Proof.
  induction s as [|a s IH]; intros i acc H; [reflexivity|].
  apply no_unit_cons in H as [E H]; simpl.
  now rewrite E, (IH _ _ H).
Qed.

Lemma lastIndexOf_from_last c p l : forall i acc,
  no_unit c l ->
  JS.lastIndexOf_from c (p ++ String c l) i acc
  = i + Z.of_nat (String.length p).
Proof.
  induction p as [|a p IH]; intros i acc H.
  - simpl. rewrite Ascii.eqb_refl, (lastIndexOf_from_absent _ _ _ _ H). lia.
  - change ((String a p ++ String c l)%string)
      with (String a (p ++ String c l)).
    unfold JS.lastIndexOf_from; fold JS.lastIndexOf_from.
    rewrite (IH _ _ H).
    change (String.length (String a p)) with (S (String.length p)). lia.
Qed.

Lemma substring_all s : String.substring 0 (String.length s) s = s.
Proof. induction s as [|a s IH]; simpl; [reflexivity | now rewrite IH]. Qed.

Lemma substring_head p r :
  String.substring 0 (String.length p) (p ++ r) = p.
Proof.
  induction p as [|a p IH]; simpl; [now destruct r | now rewrite IH].
Qed.

Lemma substring_tail p r :
  String.substring (String.length p) (String.length r) (p ++ r) = r.
Proof.
  induction p as [|a p IH]; simpl; [apply substring_all | exact IH].
Qed.

Lemma length_app p r :
  String.length (p ++ r) = (String.length p + String.length r)%nat.
Proof. induction p; simpl; congruence. Qed.

(** A key with a slash: the parent is what precedes the last slash and the
    leaf what follows it. *)
Lemma parent_leaf_of_path p l :
  no_unit "/"%char l ->
  parentOf (p ++ "/" ++ l) = p /\ leafOf (p ++ "/" ++ l) = l.
Proof.
  intros H.
  unfold parentOf, leafOf, JS.lastIndexOf, JS.substring, JS.clamp.
  change (("/" ++ l)%string) with (String "/" l).
  rewrite (lastIndexOf_from_last _ p l 0 (-1) H), length_app.
  change (String.length (String "/" l)) with (S (String.length l)).
  set (n := String.length p). set (m := String.length l).
  split.
  - replace (Z.to_nat (Z.min _ _)) with 0%nat by lia.
    replace (Z.to_nat (_ - _)) with n by lia.
    apply substring_head.
  - replace (Z.to_nat (Z.min _ _)) with (String.length (p ++ "/")).
    2:{ rewrite length_app. fold n. simpl. lia. }
    replace (Z.to_nat (_ - _)) with m by lia.
    replace (p ++ String "/" l)%string with ((p ++ "/") ++ l)%string.
    + apply substring_tail.
    + clear. induction p as [|a p IH]; simpl; [reflexivity | now rewrite IH].
Qed.

(** A key without a slash: the parent is empty and the leaf is the key. *)
Lemma parent_leaf_of_name k :
  no_unit "/"%char k -> parentOf k = "" /\ leafOf k = k.
Proof.
  intros H.
  unfold parentOf, leafOf, JS.lastIndexOf, JS.substring, JS.clamp.
  rewrite (lastIndexOf_from_absent _ _ 0 (-1) H).
  set (n := String.length k). split.
  - replace (Z.to_nat (Z.min _ _)) with 0%nat by lia.
    replace (Z.to_nat (_ - _)) with 0%nat by lia.
    now destruct k.
  - replace (Z.to_nat (Z.min _ _)) with 0%nat by lia.
    replace (Z.to_nat (_ - _)) with n by lia.
    apply substring_all.
Qed.

(** ** uploadFile: the three ways through validation *)

Lemma invalid_type_recognised x :
  JS.includes ("Invalid file type. Allowed types: " ++ x) "Invalid file type"
  = true.
Proof.
  exact (includes_prefix "Invalid file type" (". Allowed types: " ++ x)).
Qed.

Lemma too_large_recognised x :
  JS.includes ("File too large. Maximum size: " ++ x) "File too large" = true.
Proof.
  exact (includes_prefix "File too large" (". Maximum size: " ++ x)).
Qed.

Section Upload.

Variable svc : Service.
Variable file : MulterFile.
Variable options : FileUploadOptions.
Variable w : World.

Local Abbreviation types :=
  (or_default default_allowedTypes (allowedTypes options)).
Local Abbreviation limit_ := (or_default default_maxSize (maxSize options)).
Local Abbreviation key_ :=
  (keyFor (projectName options) (or_default "uploads" (folder options))
     (fileNameFor (Date_now w) (Math_random_toString36 w)
        (originalname file))).
Local Abbreviation sent :=
  (Upload (bucketName svc) key_ (buffer file)
     {| contentType := mimetype file; cacheControl := "3600";
        upsert := false |}).

Lemma uploadFile_invalid_type :
  JS.array_includes types (mimetype file) = false ->
  uploadFile svc file options w =
    (Threw (createError 400
              ("Invalid file type. Allowed types: " ++ JS.join ", " types)),
     (preamble ++ [ConsoleError "Supabase Storage upload error:"])%list).
Proof.
  intros H.
  unfold uploadFile, try_catch, bind, console_log, console_error, emit,
    throw_if.
  cbv zeta. rewrite H. cbn [negb].
  unfold throw, createError. cbn [instanceof_Error error_message andb].
  rewrite invalid_type_recognised. reflexivity.
Qed.

Lemma uploadFile_too_large :
  JS.array_includes types (mimetype file) = true ->
  file_size file > limit_ ->
  uploadFile svc file options w =
    (Threw (createError 400
              ("File too large. Maximum size: "
                 ++ quotient_toString w limit_ (1024 * 1024) ++ "MB")),
     (preamble ++ [ConsoleError "Supabase Storage upload error:"])%list).
Proof.
  intros H L. apply Z.gtb_gt in L.
  unfold uploadFile, try_catch, bind, console_log, console_error, emit,
    throw_if, ask.
  cbv zeta. rewrite H, L. cbn [negb].
  unfold throw, createError, ret.
  cbn [instanceof_Error error_message andb].
  rewrite too_large_recognised, orb_true_r. reflexivity.
Qed.

Lemma uploadFile_sends :
  JS.array_includes types (mimetype file) = true ->
  file_size file <= limit_ ->
  requests (snd (uploadFile svc file options w)) = [sent] /\
  (forall d, reply_upload w (bucketName svc) key_ (buffer file)
               {| contentType := mimetype file; cacheControl := "3600";
                  upsert := false |} = Resolved d None ->
     fst (uploadFile svc file options w) =
       Returned {| url := publicUrl svc (bucketName svc) key_;
                   key := key_;
                   bucket := bucketName svc;
                   size := file_size file |}).
Proof.
  intros H L.
  assert (G : (file_size file >? limit_) = false)
    by (destruct (Z.gtb_spec (file_size file) limit_); [lia | reflexivity]).
  unfold uploadFile, try_catch, bind, console_log, console_error, emit,
    throw_if, ask, await.
  cbv zeta. rewrite H, G. cbn [negb].
  unfold throw, createError, ret.
  destruct (reply_upload w (bucketName svc) key_ (buffer file) _)
    as [d [err|]|x] eqn:R; cbn.
  - match goal with |- context [if ?b then _ else _] => destruct b end;
      (split; [reflexivity | discriminate]).
  - split; reflexivity.
  - match goal with |- context [if ?b then _ else _] => destruct b end;
      (split; [reflexivity | discriminate]).
Qed.

End Upload.

(** ** Validation *)

(** C2. When the MIME type of the file is not among [options.allowedTypes]
    (the four image types when the option is absent), [uploadFile] raises
    the error built by [createError] with status 400, and its trace holds
    no request to the backend. *)
Theorem uploadFile_rejects_disallowed_type
    (svc : Service) (file : MulterFile) (options : FileUploadOptions)
    (w : World) :
  let allowed :=
    match allowedTypes options with
    | Some types => types
    | None => ["image/jpeg"; "image/png"; "image/gif"; "image/webp"]
    end in
  JS.array_includes allowed (mimetype file) = false ->
  fst (uploadFile svc file options w) =
    Threw (createError 400
             ("Invalid file type. Allowed types: " ++ JS.join ", " allowed))
  /\ requests (snd (uploadFile svc file options w)) = [].
Proof.
  intros allowed H.
  assert (E : allowed = or_default default_allowedTypes (allowedTypes options))
    by (unfold allowed; now destruct (allowedTypes options)).
  rewrite E in *.
  rewrite (uploadFile_invalid_type svc file options w H).
  split; reflexivity.
Qed.

Lemma uploadFile_rejects_disallowed_type_witness :
  fst (uploadFile sample_service (sample_file "notes.pdf" "application/pdf" 10)
         no_options (world_listing [])) =
    Threw (createError 400
             "Invalid file type. Allowed types: image/jpeg, image/png, image/gif, image/webp")
  /\ requests (snd (uploadFile sample_service
                      (sample_file "notes.pdf" "application/pdf" 10)
                      no_options (world_listing []))) = [].
Proof.
  apply (uploadFile_rejects_disallowed_type sample_service
           (sample_file "notes.pdf" "application/pdf" 10) no_options
           (world_listing [])).
  reflexivity.
Defined.

(** C3. With [limit] the value of [options.maxSize], or 5 MiB when the
    option is absent: a file whose size exceeds [limit] makes [uploadFile]
    raise an error of status 400 with no request sent to the backend; a file
    of an allowed type whose size is at most [limit] passes both checks, so
    that exactly the upload request is sent. *)
Theorem uploadFile_size_limit
    (svc : Service) (file : MulterFile) (options : FileUploadOptions)
    (w : World) :
  let limit :=
    match maxSize options with
    | Some m => m
    | None => 5242880
    end in
  let allowed := or_default default_allowedTypes (allowedTypes options) in
  (file_size file > limit ->
     (exists msg,
        fst (uploadFile svc file options w) = Threw (createError 400 msg)) /\
     requests (snd (uploadFile svc file options w)) = [] /\
     (JS.array_includes allowed (mimetype file) = true ->
      fst (uploadFile svc file options w) =
        Threw (createError 400
                 ("File too large. Maximum size: "
                    ++ quotient_toString w limit (1024 * 1024) ++ "MB"))))
  /\
  (file_size file <= limit ->
   JS.array_includes allowed (mimetype file) = true ->
   exists key,
     requests (snd (uploadFile svc file options w)) =
       [Upload (bucketName svc) key (buffer file)
          {| contentType := mimetype file; cacheControl := "3600";
             upsert := false |}]).
Proof.
  intros limit allowed.
  assert (E : limit = or_default default_maxSize (maxSize options))
    by (unfold limit; now destruct (maxSize options)).
  rewrite E; clear E limit. split.
  - intros L.
    destruct (JS.array_includes allowed (mimetype file)) eqn:A.
    + rewrite (uploadFile_too_large svc file options w A L).
      split; [eexists; reflexivity | split; reflexivity].
    + rewrite (uploadFile_invalid_type svc file options w A).
      split; [eexists; reflexivity | split; [reflexivity | discriminate]].
  - intros L A.
    destruct (uploadFile_sends svc file options w A L) as [S _].
    eexists. exact S.
Qed.

Lemma uploadFile_size_limit_witness :
  (fst (uploadFile sample_service (sample_file "big.png" "image/png" 5242881)
          no_options (world_listing [])) =
     Threw (createError 400 "File too large. Maximum size: 5MB")
   /\ requests (snd (uploadFile sample_service
                       (sample_file "big.png" "image/png" 5242881)
                       no_options (world_listing []))) = [])
  /\ exists key,
       requests (snd (uploadFile sample_service
                        (sample_file "ok.png" "image/png" 5242880)
                        no_options (world_listing []))) =
         [Upload "project-assets" key []
            {| contentType := "image/png"; cacheControl := "3600";
               upsert := false |}].
Proof.
  split.
  - destruct (uploadFile_size_limit sample_service
                (sample_file "big.png" "image/png" 5242881) no_options
                (world_listing [])) as [Big _].
    destruct Big as [_ [Quiet Msg]]; [simpl; lia|].
    split; [apply Msg; reflexivity | exact Quiet].
  - destruct (uploadFile_size_limit sample_service
                (sample_file "ok.png" "image/png" 5242880) no_options
                (world_listing [])) as [_ Ok].
    apply Ok; [simpl; lia | reflexivity].
Defined.

(** ** Key construction *)

Lemma length_replace_units s :
  List.length (replace_units s) = List.length s.
Proof. induction s as [|u s IH]; simpl; congruence. Qed.

Lemma nth_replace_units s : forall i u,
  nth_error s i = Some u ->
  nth_error (replace_units s) i
  = Some (if unit_in_class u then u else 45%N).
Proof.
  induction s as [|a s IH]; intros [|i] u H; simpl in *;
    try discriminate.
  - now inversion H.
  - now apply IH.
Qed.

Lemma replace_units_in_class s :
  Forall (fun u => unit_in_class u = true) (replace_units s).
Proof.
  induction s as [|a s IH]; simpl; constructor; [|exact IH].
  destruct (unit_in_class a) eqn:E; [exact E | reflexivity].
Qed.

Lemma replace_units_of_string s :
  replace_units (units_of_string s)
  = units_of_string (JS.replace_not_az09_hyphen s).
Proof.
  unfold units_of_string.
  induction s as [|c s IH]; [reflexivity|].
  cbn [list_ascii_of_string JS.replace_not_az09_hyphen map replace_units].
  rewrite IH. f_equal.
  change (unit_in_class (N_of_ascii c)) with (JS.in_class_az09_hyphen c).
  now destruct (JS.in_class_az09_hyphen c).
Qed.

Lemma sample_toLowerCase_latin1 (s : string) :
  sample_toLowerCase (units_of_string s) = units_of_string (JS.toLowerCase s).
Proof.
  unfold sample_toLowerCase, units_of_string.
  induction s as [|c s IH]; [reflexivity|].
  cbn [list_ascii_of_string JS.toLowerCase map flat_map].
  rewrite IH. unfold sample_lower_unit.
  pose proof (N_ascii_bounded c) as B. apply N.ltb_lt in B.
  rewrite B, ascii_N_embedding. reflexivity.
Qed.

(** C4. Take any project name, as the list of its code units, and any
    lowering function that is the runtime's on the strings of code units
    0..255.  The sanitized name has one code unit for each unit of the
    lowercased name: that unit itself when it lies in [a-z0-9-], a hyphen
    otherwise, so neighbouring replacements are never merged.  All its
    units lie in [a-z0-9-].  On a name of code units 0..255 it is what
    [uploadFile] and [listProjectFiles] compute, and "My Project!" becomes
    "my-project-". *)
Theorem sanitizeProjectName_unit_by_unit
    (toLowerCase : list N -> list N) (projectName : list N) :
  (forall s : string,
     toLowerCase (units_of_string s) = units_of_string (JS.toLowerCase s)) ->
  let lowered := toLowerCase projectName in
  let sanitized := sanitizeUnits toLowerCase projectName in
  List.length sanitized = List.length lowered
  /\ (forall i u,
        nth_error lowered i = Some u ->
        nth_error sanitized i = Some (if unit_in_class u then u else 45%N))
  /\ Forall (fun u => unit_in_class u = true) sanitized
  /\ (forall s : string,
        sanitizeUnits toLowerCase (units_of_string s)
        = units_of_string (sanitizeProjectName s))
  /\ sanitizeUnits toLowerCase (units_of_string "My Project!")
     = units_of_string "my-project-".
Proof.
  intros Latin1 lowered sanitized.
  assert (Bridge : forall s : string,
            sanitizeUnits toLowerCase (units_of_string s)
            = units_of_string (sanitizeProjectName s)).
  { intros s. unfold sanitizeUnits, sanitizeProjectName.
    now rewrite Latin1, replace_units_of_string. }
  split; [|split; [|split; [|split]]].
  - apply length_replace_units.
  - apply nth_replace_units.
  - apply replace_units_in_class.
  - exact Bridge.
  - rewrite Bridge. reflexivity.
Qed.

Lemma sanitizeProjectName_unit_by_unit_witness :
  sanitizeUnits sample_toLowerCase [304; 115; 116; 97; 110; 98; 117; 108]%N
    = units_of_string "i-stanbul"
  /\ nth_error (sanitizeUnits sample_toLowerCase
                  [304; 115; 116; 97; 110; 98; 117; 108]%N) 1
     = Some 45%N
  /\ sanitizeUnits sample_toLowerCase (units_of_string "My Project!")
     = units_of_string "my-project-"
  /\ sanitizeUnits sample_toLowerCase (units_of_string "A  b")
     = units_of_string "a--b".
Proof.
  destruct (sanitizeProjectName_unit_by_unit sample_toLowerCase
              [304; 115; 116; 97; 110; 98; 117; 108]%N
              sample_toLowerCase_latin1)
    as [_ [Units [_ [Bridge Example]]]].
  split; [reflexivity|].
  split; [exact (Units 1%nat 775%N eq_refl)|].
  split; [exact Example|].
  exact (Bridge "A  b").
Defined.

Lemma append_assoc_s a b c : ((a ++ b) ++ c)%string = (a ++ (b ++ c))%string.
Proof. induction a as [|x a IH]; simpl; [reflexivity | now rewrite IH]. Qed.

Lemma keyFor_ends_with_fileName p f n :
  exists dir, keyFor p f n = (dir ++ n)%string.
Proof.
  unfold keyFor. destruct (truthy p) as [q|].
  - exists (sanitizeProjectName q ++ "/" ++ f ++ "/").
    now rewrite !append_assoc_s.
  - exists (f ++ "/"). now rewrite append_assoc_s.
Qed.

(** C10. For an original file name without a dot, the extension taken by
    [split('.').pop()] is the whole name; an upload that passes validation
    is then sent under a key of the form [stem ++ "." ++ originalname], and
    that key is the one returned when the backend accepts the upload. *)
Theorem uploadFile_key_of_dotless_name
    (svc : Service) (file : MulterFile) (options : FileUploadOptions)
    (w : World) :
  no_unit "."%char (originalname file) ->
  JS.pop (JS.split "."%char (originalname file)) = Some (originalname file)
  /\ (JS.array_includes
        (or_default default_allowedTypes (allowedTypes options))
        (mimetype file) = true ->
      file_size file <= or_default default_maxSize (maxSize options) ->
      exists stem,
        let k := (stem ++ "." ++ originalname file)%string in
        let opts := {| contentType := mimetype file; cacheControl := "3600";
                       upsert := false |} in
        requests (snd (uploadFile svc file options w)) =
          [Upload (bucketName svc) k (buffer file) opts]
        /\ (forall d,
              reply_upload w (bucketName svc) k (buffer file) opts
                = Resolved d None ->
              exists r, fst (uploadFile svc file options w) = Returned r
                        /\ key r = k)).
Proof.
  intros H.
  assert (P : JS.pop (JS.split "."%char (originalname file))
              = Some (originalname file))
    by now rewrite (split_no_sep _ _ H).
  split; [exact P|]. intros A L.
  destruct (uploadFile_sends svc file options w A L) as [S R].
  unfold fileNameFor in S, R. rewrite P in S, R. cbn [JS.interpolate] in S, R.
  set (base := (JS.show_int (Date_now w) ++ "-"
                ++ JS.substring (Math_random_toString36 w) 2 (Some 15))%string)
    in *.
  destruct (keyFor_ends_with_fileName (projectName options)
              (or_default "uploads" (folder options))
              (JS.show_int (Date_now w) ++ "-"
               ++ JS.substring (Math_random_toString36 w) 2 (Some 15) ++ "."
               ++ originalname file)) as [dir K].
  rewrite K in S, R.
  exists (dir ++ base)%string. cbv zeta.
  replace ((dir ++ base) ++ "." ++ originalname file)%string
    with (dir ++ JS.show_int (Date_now w) ++ "-"
          ++ JS.substring (Math_random_toString36 w) 2 (Some 15) ++ "."
          ++ originalname file)%string
    by (unfold base; now rewrite !append_assoc_s).
  split; [exact S|].
  intros d E. eexists. split; [exact (R d E) | reflexivity].
Qed.

Lemma uploadFile_key_of_dotless_name_witness :
  requests (snd (uploadFile sample_service (sample_file "README" "image/png" 10)
                   no_options (world_listing []))) =
    [Upload "project-assets" "uploads/1700000000000-4fzyo82mvyr.README" []
       {| contentType := "image/png"; cacheControl := "3600";
          upsert := false |}]
  /\ exists stem,
       requests (snd (uploadFile sample_service
                        (sample_file "README" "image/png" 10)
                        no_options (world_listing []))) =
         [Upload "project-assets" (stem ++ ".README") []
            {| contentType := "image/png"; cacheControl := "3600";
               upsert := false |}].
Proof.
  split; [reflexivity|].
  destruct (uploadFile_key_of_dotless_name sample_service
              (sample_file "README" "image/png" 10) no_options
              (world_listing [])) as [_ Sent_].
  - unfold no_unit. simpl. intros [E|[E|[E|[E|[E|[E|[]]]]]]]; discriminate E.
  - destruct Sent_ as [stem [S _]]; [reflexivity | vm_compute; discriminate |].
    exists stem. exact S.
Defined.

(** ** Signed URLs *)

(** C5. [getSignedUploadUrl] sends the request [createSignedUploadUrl(key)]
    whatever [expiresIn] is, and two calls that differ only in [expiresIn]
    have the same outcome and the same trace. *)
Theorem getSignedUploadUrl_ignores_expiresIn
    (svc : Service) (key contentType : string) (e1 e2 : option Z)
    (w : World) :
  getSignedUploadUrl svc key contentType e1 w
    = getSignedUploadUrl svc key contentType e2 w
  /\ requests (snd (getSignedUploadUrl svc key contentType e1 w))
     = [CreateSignedUploadUrl (bucketName svc) key].
Proof.
  split; [reflexivity|].
  unfold getSignedUploadUrl, try_catch, bind, await.
  destruct (reply_createSignedUploadUrl w (bucketName svc) key)
    as [[d|] [err|]|x]; reflexivity.
Qed.

(** The download variant does forward [expiresIn]. *)
Lemma getSignedDownloadUrl_forwards_expiresIn svc key e w :
  requests (snd (getSignedDownloadUrl svc key e w))
  = [CreateSignedUrl (bucketName svc) key (or_default 3600 e)].
Proof.
  unfold getSignedDownloadUrl, try_catch, bind, await.
  destruct (reply_createSignedUrl w (bucketName svc) key (or_default 3600 e))
    as [[d|] [err|]|x]; reflexivity.
Qed.

(** ** Wrapping of backend errors *)

(** Whatever goes wrong inside [deleteFile], the error that leaves it is the
    one built in its [catch] block. *)
Lemma deleteFile_raises_only_generic svc key w e :
  fst (deleteFile svc key w) = Threw e ->
  e = createError 500 "Failed to delete file from storage".
Proof.
  unfold deleteFile, try_catch, bind, await.
  destruct (reply_remove w (bucketName svc) [key]) as [d [err|]|x]; cbn;
    intros E; inversion E; reflexivity.
Qed.

Lemma deleteFile_backend_error svc key w d err :
  reply_remove w (bucketName svc) [key] = Resolved d (Some err) ->
  deleteFile svc key w =
    (Threw (createError 500 "Failed to delete file from storage"),
     [Sent (Remove (bucketName svc) [key]);
      ConsoleError "Supabase delete error:";
      ConsoleError "Supabase Storage delete error:"]).
Proof.
  intros R. unfold deleteFile, try_catch, bind, await. rewrite R. reflexivity.
Qed.

(** C6. On the backend error "Object not found", [deleteFile] raises an
    error of status 500 whose message is "Failed to delete file from
    storage": the error built with the backend's text is caught by the
    method's own [catch] block, and the text is not in the message that
    reaches the caller. *)
Theorem deleteFile_drops_backend_text :
  fst (deleteFile sample_service "proj/uploads/a.png"
         (world_failing "Object not found"))
    = Threw (HttpError 500 "Failed to delete file from storage")
  /\ JS.includes "Failed to delete file from storage" "Object not found"
     = false
  /\ fst (deleteFile sample_service "proj/uploads/a.png"
            (world_failing "Object not found"))
     <> Threw (createError 500 "Failed to delete file: Object not found").
Proof.
  rewrite (deleteFile_backend_error sample_service "proj/uploads/a.png"
             (world_failing "Object not found") None
             {| se_message := "Object not found" |} eq_refl).
  split; [reflexivity | split; [reflexivity | discriminate]].
Qed.

(** Whatever goes wrong inside [getFileMetadata], the error that leaves it
    is the one built in its [catch] block: status 404 never reaches the
    caller. *)
Lemma getFileMetadata_raises_only_generic svc key w e :
  fst (getFileMetadata svc key w) = Threw e ->
  e = createError 500 "Failed to get file metadata".
Proof.
  unfold getFileMetadata, try_catch, bind, await.
  destruct (reply_list w (bucketName svc) (parentOf key)
              (search_for (leafOf key))) as [[[|f fs]|] [err|]|x]; cbn;
    intros E; inversion E; reflexivity.
Qed.

Lemma getFileMetadata_empty_listing svc key w :
  reply_list w (bucketName svc) (parentOf key) (search_for (leafOf key))
    = Resolved (Some []) None ->
  getFileMetadata svc key w =
    (Threw (createError 500 "Failed to get file metadata"),
     [Sent (ListObjects (bucketName svc) (parentOf key)
              (search_for (leafOf key)));
      ConsoleError "Supabase metadata error:"]).
Proof.
  intros R. unfold getFileMetadata, try_catch, bind, await. rewrite R.
  reflexivity.
Qed.

Lemma getFileMetadata_backend_error svc key w d err :
  reply_list w (bucketName svc) (parentOf key) (search_for (leafOf key))
    = Resolved d (Some err) ->
  fst (getFileMetadata svc key w) =
    Threw (createError 500 "Failed to get file metadata").
Proof.
  intros R. unfold getFileMetadata, try_catch, bind, await. rewrite R.
  reflexivity.
Qed.

(** C1. For the key "proj/uploads/missing.png" and a backend whose listing
    is empty, [getFileMetadata] raises an error of status 500 with the
    message "Failed to get file metadata": the 404 error "File not found"
    is built, but the method's own [catch] block replaces it. *)
Theorem getFileMetadata_missing_object_raises_500 :
  fst (getFileMetadata sample_service "proj/uploads/missing.png"
         (world_listing []))
    = Threw (HttpError 500 "Failed to get file metadata")
  /\ fst (getFileMetadata sample_service "proj/uploads/missing.png"
            (world_listing []))
     <> Threw (createError 404 "File not found").
Proof.
  rewrite (getFileMetadata_empty_listing sample_service
             "proj/uploads/missing.png" (world_listing []) eq_refl).
  split; [reflexivity | discriminate].
Qed.

(** ** Existence check *)

Lemma nonempty_length {A} (x : A) (xs : list A) :
  (Z.of_nat (List.length (x :: xs)) >? 0) = true.
Proof. apply Z.gtb_gt. simpl List.length. lia. Qed.

(** C7. [fileExists] sends one listing request, for the part of the key
    before its last slash, searching for the part after it.  It never
    raises.  It returns [true] exactly when the backend answers without
    error with a non-empty array, and [false] when the backend answers with
    an error or when the call rejects. *)
Theorem fileExists_best_effort (svc : Service) (key : string) (w : World) :
  let answer :=
    reply_list w (bucketName svc) (parentOf key) (search_for (leafOf key)) in
  requests (snd (fileExists svc key w)) =
    [ListObjects (bucketName svc) (parentOf key)
       {| limit := None; sortBy := None; search := Some (leafOf key) |}]
  /\ (forall p l, no_unit "/"%char l -> key = (p ++ "/" ++ l)%string ->
        parentOf key = p /\ leafOf key = l)
  /\ (exists v, fst (fileExists svc key w) = Returned v)
  /\ (fst (fileExists svc key w) = Returned (JsBoolean true) <->
      exists f fs, answer = Resolved (Some (f :: fs)) None)
  /\ (forall d err, answer = Resolved d (Some err) ->
        fst (fileExists svc key w) = Returned (JsBoolean false))
  /\ (forall x, answer = Rejected x ->
        fst (fileExists svc key w) = Returned (JsBoolean false)).
Proof.
  intros answer.
  split; [|split].
  - unfold fileExists, try_catch, bind, await.
    destruct (reply_list w (bucketName svc) (parentOf key)
                (search_for (leafOf key))) as [[fs|] [err|]|x]; reflexivity.
  - intros p l H ->. now apply parent_leaf_of_path.
  - unfold fileExists, try_catch, bind, await. fold answer.
    destruct answer as [[[|f fs]|] [err|]|x]; cbn -[Z.of_nat Z.gtb];
      try rewrite nonempty_length.
    all: split; [eexists; reflexivity|].
    all: split; [split;
                 [intros E; try discriminate E
                 |intros [f' [fs' E]]; try discriminate E] |].
    all: try (split; [intros ? ? E | intros ? E]; first
               [reflexivity | discriminate E]).
    + eexists; eexists; reflexivity.
    + reflexivity.
Qed.

Lemma fileExists_best_effort_witness :
  fst (fileExists sample_service "proj/uploads/a.png"
         (world_listing [sample_object "a.png"])) = Returned (JsBoolean true)
  /\ fst (fileExists sample_service "proj/uploads/a.png"
            (world_failing "Bucket not found")) = Returned (JsBoolean false)
  /\ fst (fileExists sample_service "proj/uploads/a.png" world_unreachable)
     = Returned (JsBoolean false)
  /\ parentOf "proj/uploads/a.png" = "proj/uploads"
  /\ leafOf "proj/uploads/a.png" = "a.png".
Proof.
  split; [|split; [|split]].
  - destruct (fileExists_best_effort sample_service "proj/uploads/a.png"
                (world_listing [sample_object "a.png"]))
      as [_ [_ [_ [Iff _]]]].
    apply Iff. exists (sample_object "a.png"), []. reflexivity.
  - destruct (fileExists_best_effort sample_service "proj/uploads/a.png"
                (world_failing "Bucket not found"))
      as [_ [_ [_ [_ [OnError _]]]]].
    apply (OnError None {| se_message := "Bucket not found" |}). reflexivity.
  - destruct (fileExists_best_effort sample_service "proj/uploads/a.png"
                world_unreachable) as [_ [_ [_ [_ [_ OnReject]]]]].
    apply (OnReject (NativeError "TypeError" "fetch failed")). reflexivity.
  - destruct (fileExists_best_effort sample_service "proj/uploads/a.png"
                world_unreachable) as [_ [Parts _]].
    apply (Parts "proj/uploads" "a.png"); [|reflexivity].
    unfold no_unit. simpl. intros [E|[E|[E|[E|[E|[]]]]]]; discriminate E.
Defined.

(** ** Listing *)

Lemma prefix_of_listed prefix files :
  Forall (fun e => String.prefix (prefix ++ "/") (Key e) = true)
         (map (listed prefix) files).
Proof.
  induction files as [|f fs IH]; simpl; constructor; [|exact IH].
  unfold listed; cbn [Key].
  rewrite <- (append_assoc_s prefix "/" (name f)). apply prefix_app.
Qed.

(** C9. [listProjectFiles] sends one listing request, for the prefix built
    from the sanitized project name and the folder, with limit 1000 and
    ascending order by name.  When the backend answers with the array
    [files], the result has one entry per element, in the same order, whose
    [Key] is the prefix, a slash and the element's name.  The project
    segment is the one [uploadFile] puts in its keys.  For "Proj" and
    "videos" every returned key starts with "proj/videos/". *)
Theorem listProjectFiles_keys
    (svc : Service) (projectName : string) (folder : option string)
    (w : World) :
  let prefix :=
    match folder with
    | None | Some EmptyString => sanitizeProjectName projectName
    | Some f => (sanitizeProjectName projectName ++ "/" ++ f)%string
    end in
  let options :=
    {| limit := Some 1000;
       sortBy := Some {| column := "name"; order := "asc" |};
       search := None |} in
  requests (snd (listProjectFiles svc projectName folder w)) =
    [ListObjects (bucketName svc) prefix options]
  /\ (forall files,
        reply_list w (bucketName svc) prefix options
          = Resolved (Some files) None ->
        fst (listProjectFiles svc projectName folder w) =
          Returned (map (fun file =>
                           {| Key := prefix ++ "/" ++ name file;
                              Size := match metadata file with
                                      | Some m => meta_size m
                                      | None => None
                                      end;
                              LastModified := updated_at file |}) files))
  /\ (forall dir fileName,
        projectName <> "" ->
        keyFor (Some projectName) dir fileName =
          (sanitizeProjectName projectName ++ "/" ++ dir ++ "/" ++ fileName)
            %string)
  /\ (forall files,
        reply_list w (bucketName svc) "proj/videos" options
          = Resolved (Some files) None ->
        exists entries,
          fst (listProjectFiles svc "Proj" (Some "videos") w)
            = Returned entries
          /\ Forall (fun e => String.prefix "proj/videos/" (Key e) = true)
                    entries).
Proof.
  intros prefix options.
  assert (P : forall p f, prefixFor p f =
                match f with
                | None | Some EmptyString => sanitizeProjectName p
                | Some g => (sanitizeProjectName p ++ "/" ++ g)%string
                end)
    by (intros p [[|a g]|]; reflexivity).
  assert (Run : forall p f files,
            reply_list w (bucketName svc) (prefixFor p f) list_options
              = Resolved (Some files) None ->
            fst (listProjectFiles svc p f w)
              = Returned (map (listed (prefixFor p f)) files)).
  { intros p f files R.
    unfold listProjectFiles, try_catch, bind, await. rewrite R. reflexivity. }
  split; [|split; [|split]].
  - unfold prefix. rewrite <- P.
    unfold listProjectFiles, try_catch, bind, await.
    destruct (reply_list w (bucketName svc) (prefixFor projectName folder)
                list_options) as [[fs|] [err|]|x]; reflexivity.
  - intros files R. unfold prefix in *. rewrite <- P in *.
    exact (Run _ _ _ R).
  - intros dir fileName NE. unfold keyFor.
    destruct projectName as [|a p]; [now destruct NE | reflexivity].
  - intros files R. eexists. split.
    + exact (Run "Proj" (Some "videos") files R).
    + exact (prefix_of_listed "proj/videos" files).
Qed.

Lemma listProjectFiles_keys_witness :
  fst (listProjectFiles sample_service "Proj" (Some "videos")
         (world_listing [sample_object "a.mp4"; sample_object "b.mp4"])) =
    Returned [ {| Key := "proj/videos/a.mp4"; Size := Some 10;
                  LastModified := "2024-01-01T00:00:00Z" |};
               {| Key := "proj/videos/b.mp4"; Size := Some 10;
                  LastModified := "2024-01-01T00:00:00Z" |} ]
  /\ keyFor (Some "Proj") "videos" "1-x.mp4" = "proj/videos/1-x.mp4".
Proof.
  destruct (listProjectFiles_keys sample_service "Proj" (Some "videos")
              (world_listing [sample_object "a.mp4"; sample_object "b.mp4"]))
    as [_ [Entries [Same _]]].
  split.
  - apply (Entries [sample_object "a.mp4"; sample_object "b.mp4"]).
    reflexivity.
  - apply (Same "videos" "1-x.mp4"). discriminate.
Defined.

(** * Further properties of the service *)

(** ** The extension taken from the original name *)

Lemma split_cons_shape c a s :
  JS.split c (String a s) =
    if Ascii.eqb a c then EmptyString :: JS.split c s
    else match JS.split c s with
         | [] => [String a EmptyString]
         | piece :: rest => String a piece :: rest
         end.
Proof. reflexivity. Qed.

Lemma split_nonempty c s : JS.split c s <> [].
Proof.
  induction s as [|a s IH]; [discriminate|].
  rewrite split_cons_shape.
  destruct (Ascii.eqb a c); [discriminate|].
  destruct (JS.split c s); [now destruct IH | discriminate].
Qed.

Lemma split_with_sep_long c t r :
  exists y z zs, JS.split c (t ++ String c r) = y :: z :: zs.
Proof.
  induction t as [|b t [y [z [zs IH]]]].
  - cbn [append]. rewrite split_cons_shape, Ascii.eqb_refl.
    destruct (JS.split c r) as [|z zs] eqn:S;
      [now destruct (split_nonempty c r) | now eauto].
  - change ((String b t ++ String c r)%string)
      with (String b (t ++ String c r)).
    rewrite split_cons_shape, IH.
    destruct (Ascii.eqb b c); eauto.
Qed.

Lemma pop_cons_nonempty x y ys : JS.pop (x :: y :: ys) = JS.pop (y :: ys).
Proof. reflexivity. Qed.

Lemma no_unit_nil c : no_unit c EmptyString.
Proof. intros []. Qed.

Lemma no_unit_String c a s :
  Ascii.eqb a c = false -> no_unit c s -> no_unit c (String a s).
Proof.
  intros E H [I|I].
  - subst a. now rewrite Ascii.eqb_refl in E.
  - now apply H.
Qed.

Lemma pop_split_shape (originalname : string) :
  exists ext,
    JS.pop (JS.split "."%char originalname) = Some ext
    /\ no_unit "."%char ext
    /\ (originalname = ext
        \/ exists stem, originalname = (stem ++ "." ++ ext)%string).
Proof.
  induction originalname as [|a s IH].
  - exists EmptyString. split; [reflexivity|].
    split; [apply no_unit_nil | now left].
  - destruct IH as [ext [P [N Shape]]].
    rewrite split_cons_shape.
    destruct (Ascii.eqb a ".") eqn:E.
    + apply Ascii.eqb_eq in E; subst a.
      exists ext. split.
      * destruct (JS.split "." s) as [|y ys] eqn:S;
          [now destruct (split_nonempty "." s) | exact P].
      * split; [exact N|]. right.
        destruct Shape as [->|[stem ->]].
        -- now exists EmptyString.
        -- now exists (String "." stem).
    + destruct (JS.split "." s) as [|y [|z zs]] eqn:S.
      * now destruct (split_nonempty "." s).
      * cbn in P. inversion P; subst y. clear P.
        exists (String a ext). split; [reflexivity|].
        split; [now apply no_unit_String|].
        destruct Shape as [->|[stem ->]]; [now left|].
        destruct (split_with_sep_long "." stem ext) as [u [v [vs L]]].
        change (String "." ext) with ("." ++ ext)%string in L.
        rewrite L in S. discriminate S.
      * rewrite pop_cons_nonempty in P.
        exists ext. split; [exact P|]. split; [exact N|]. right.
        destruct Shape as [->|[stem ->]].
        -- rewrite (split_no_sep "." ext N) in S. discriminate S.
        -- now exists (String a stem).
Qed.

(** X1. For every original name, [split('.').pop()] is a string (never
    [undefined]) without a dot, and it is the end of the name: the name is
    that string, or something, a dot and that string. *)
Theorem extension_is_last_dot_segment (originalname : string) :
  exists ext,
    JS.pop (JS.split "."%char originalname) = Some ext
    /\ no_unit "."%char ext
    /\ (originalname = ext
        \/ exists stem, originalname = (stem ++ "." ++ ext)%string).
Proof. exact (pop_split_shape originalname). Qed.

(** ** Parent and leaf of a key *)

Lemma last_sep_decompose c s :
  no_unit c s \/ exists p l, s = (p ++ String c l)%string /\ no_unit c l.
Proof.
  induction s as [|a s [N|[p [l [-> N]]]]].
  - left. apply no_unit_nil.
  - destruct (Ascii.eqb a c) eqn:E.
    + apply Ascii.eqb_eq in E; subst a.
      right. exists EmptyString, s. now split.
    + left. now apply no_unit_String.
  - right. exists (String a p), l. now split.
Qed.

(** X2. For every key, the leaf [fileExists] and [getFileMetadata] search
    for has no slash, and the key is either the leaf alone, the parent being
    empty, or the parent, a slash and the leaf. *)
Theorem key_is_parent_slash_leaf (key : string) :
  no_unit "/"%char (leafOf key)
  /\ ((parentOf key = "" /\ key = leafOf key)
      \/ key = (parentOf key ++ "/" ++ leafOf key)%string).
Proof.
  destruct (last_sep_decompose "/" key) as [N|[p [l [-> N]]]].
  - destruct (parent_leaf_of_name key N) as [P L].
    rewrite L. split; [exact N | left; now split].
  - destruct (parent_leaf_of_path p l N) as [P L].
    change (String "/" l) with ("/" ++ l)%string.
    rewrite P, L. split; [exact N | now right].
Qed.

(** ** Sanitized project names *)

Lemma lower_unit_in_class c :
  JS.in_class_az09_hyphen c = true -> JS.lower_unit c = c.
Proof.
  destruct c as [[|] [|] [|] [|] [|] [|] [|] [|]];
    intros H; first [reflexivity | discriminate H].
Qed.

Lemma sanitize_fixed s :
  Forall (fun c => JS.in_class_az09_hyphen c = true)
         (list_ascii_of_string s) ->
  sanitizeProjectName s = s.
Proof.
  unfold sanitizeProjectName.
  induction s as [|a s IH]; intros H; [reflexivity|].
  inversion H as [|x xs Ha Hs]; subst. simpl.
  rewrite (lower_unit_in_class a Ha), Ha, (IH Hs). reflexivity.
Qed.

Lemma in_class_no_unit c s :
  JS.in_class_az09_hyphen c = false ->
  Forall (fun x => JS.in_class_az09_hyphen x = true)
         (list_ascii_of_string s) ->
  no_unit c s.
Proof.
  intros Hc F I. rewrite Forall_forall in F.
  specialize (F c I). congruence.
Qed.

(** X3. Sanitizing is idempotent, and a sanitized project name has neither
    a slash nor a dot: a project name cannot add a path segment or a parent
    reference to a key. *)
Theorem sanitizeProjectName_idempotent_no_separator (projectName : string) :
  sanitizeProjectName (sanitizeProjectName projectName)
    = sanitizeProjectName projectName
  /\ no_unit "/"%char (sanitizeProjectName projectName)
  /\ no_unit "."%char (sanitizeProjectName projectName).
Proof.
  pose proof (sanitize_in_class projectName) as F.
  split; [now apply sanitize_fixed|].
  split; apply in_class_no_unit; (reflexivity || exact F).
Qed.

(** ** The random part of a file name *)

Lemma length_substring_le n m s :
  (String.length (String.substring n m s) <= m)%nat.
Proof.
  revert n m. induction s as [|a s IH]; intros [|n] [|m]; simpl;
    try lia.
  - specialize (IH 0%nat m). lia.
  - apply (IH n 0%nat).
  - apply (IH n (S m)).
Qed.

(** X4. The random part of a generated file name has at most 13 code
    units.  When [Math.random().toString(36)] is "0." followed by at most 13
    digits, the random part is exactly those digits; when it has at most two
    units (as for the number 0) the random part is empty. *)
Theorem randomString_bounds (random36 : string) :
  (String.length (JS.substring random36 2%Z (Some 15%Z)) <= 13)%nat
  /\ (forall digits,
        random36 = ("0." ++ digits)%string ->
        (String.length digits <= 13)%nat ->
        JS.substring random36 2 (Some 15) = digits)
  /\ ((String.length random36 <= 2)%nat ->
      JS.substring random36 2 (Some 15) = "").
Proof.
  unfold JS.substring, JS.clamp.
  set (len := Z.of_nat (String.length random36)).
  assert (0 <= len) by (unfold len; lia).
  split; [|split].
  - eapply Nat.le_trans; [apply length_substring_le | lia].
  - intros digits -> L.
    assert (E : len = 2 + Z.of_nat (String.length digits))
      by (unfold len; simpl String.length; lia).
    replace (Z.to_nat (Z.min _ _)) with 2%nat by lia.
    replace (Z.to_nat (_ - _)) with (String.length digits) by lia.
    simpl. apply substring_all.
  - intros L.
    replace (Z.to_nat (_ - _)) with 0%nat by lia.
    generalize (Z.to_nat (Z.min (Z.max 0 (Z.min 2 len))
                                (Z.max 0 (Z.min 15 len)))).
    clear. induction random36 as [|a s IH]; intros [|n]; simpl; auto.
Qed.

Lemma randomString_bounds_witness :
  JS.substring "0.4fzyo82mvyr" 2 (Some 15) = "4fzyo82mvyr"
  /\ JS.substring "0" 2 (Some 15) = "".
Proof.
  split.
  - destruct (randomString_bounds "0.4fzyo82mvyr") as [_ [Digits _]].
    apply (Digits "4fzyo82mvyr"); [reflexivity | simpl; lia].
  - destruct (randomString_bounds "0") as [_ [_ Short]].
    apply Short. simpl; lia.
Defined.

(** ** uploadFile after validation *)

Lemma prefix_refl s : String.prefix s s = true.
Proof.
  induction s as [|c s IH]; simpl; [reflexivity|].
  destruct (ascii_dec c c) as [_|ne]; [exact IH | now destruct ne].
Qed.

Lemma includes_self s : JS.includes s s = true.
Proof.
  destruct s as [|c s]; [reflexivity|].
  unfold JS.includes; fold JS.includes. now rewrite prefix_refl.
Qed.

Lemma includes_suffix p s : JS.includes (p ++ s) s = true.
Proof.
  induction p as [|c p IH]; [apply includes_self|].
  change ((String c p ++ s)%string) with (String c (p ++ s)).
  unfold JS.includes; fold JS.includes. rewrite IH. apply orb_true_r.
Qed.

Section UploadValid.

Variable svc : Service.
Variable file : MulterFile.
Variable options : FileUploadOptions.
Variable w : World.

Local Abbreviation the_key :=
  (keyFor (projectName options) (or_default "uploads" (folder options))
     (fileNameFor (Date_now w) (Math_random_toString36 w)
        (originalname file))).
Local Abbreviation the_opts :=
  {| contentType := mimetype file; cacheControl := "3600"; upsert := false |}.
Local Abbreviation sending :=
  (preamble ++ [ConsoleLog "Uploading to bucket:"; ConsoleLog "Key:";
                Sent (Upload (bucketName svc) the_key (buffer file) the_opts)])
    %list.

Hypothesis type_ok :
  JS.array_includes (or_default default_allowedTypes (allowedTypes options))
    (mimetype file) = true.
Hypothesis size_ok :
  file_size file <= or_default default_maxSize (maxSize options).

Lemma uploadFile_valid_run :
  uploadFile svc file options w =
    match reply_upload w (bucketName svc) the_key (buffer file) the_opts with
    | Resolved _ None =>
        (Returned {| url := publicUrl svc (bucketName svc) the_key;
                     key := the_key;
                     bucket := bucketName svc;
                     size := file_size file |},
         (sending ++ [ConsoleLog "Upload successful!";
                      ConsoleLog "Upload completed successfully:"])%list)
    | Resolved _ (Some err) =>
        let inner := ("Upload failed: " ++ se_message err)%string in
        (Threw (if (JS.includes inner "Invalid file type"
                    || JS.includes inner "File too large")%bool
                then createError 500 inner
                else createError 500 ("Failed to upload file: " ++ inner)),
         (sending ++ [ConsoleError "Supabase upload error:";
                      ConsoleError "Supabase Storage upload error:"])%list)
    | Rejected x =>
        (Threw (if (instanceof_Error x
                    && (JS.includes (error_message x) "Invalid file type"
                        || JS.includes (error_message x) "File too large"))
                     %bool
                then x
                else createError 500
                       ("Failed to upload file: "
                          ++ (if instanceof_Error x then error_message x
                              else "Unknown error"))),
         (sending ++ [ConsoleError "Supabase Storage upload error:"])%list)
    end.
Proof.
  assert (G : (file_size file >? or_default default_maxSize (maxSize options))
              = false).
  { destruct (Z.gtb_spec (file_size file)
                (or_default default_maxSize (maxSize options)));
      [lia | reflexivity]. }
  unfold uploadFile, try_catch, bind, console_log, console_error, emit,
    throw_if, ask, await.
  cbv zeta. rewrite type_ok, G. cbn [negb].
  unfold throw, createError, ret.
  destruct (reply_upload w (bucketName svc) the_key (buffer file) the_opts)
    as [d [err|]|x]; cbn.
  - match goal with |- context [if ?b then _ else _] => destruct b end;
      reflexivity.
  - reflexivity.
  - match goal with |- context [if ?b then _ else _] => destruct b end;
      reflexivity.
Qed.

End UploadValid.

(** X5. When the backend call resolves (with or without an error),
    [uploadFile] raises an error of status 400 exactly when validation
    fails: the type is not allowed or the size exceeds the limit.  Every
    other failure is an error of status 500. *)
Theorem uploadFile_status_400_iff_invalid
    (svc : Service) (file : MulterFile) (options : FileUploadOptions)
    (w : World) :
  (forall b k body o x, reply_upload w b k body o <> Rejected x) ->
  let invalid :=
    JS.array_includes (or_default default_allowedTypes (allowedTypes options))
      (mimetype file) = false
    \/ file_size file > or_default default_maxSize (maxSize options) in
  ((exists m, fst (uploadFile svc file options w) = Threw (HttpError 400 m))
   <-> invalid)
  /\ (forall e, fst (uploadFile svc file options w) = Threw e ->
      exists m, e = HttpError (if JS.array_includes
                                    (or_default default_allowedTypes
                                       (allowedTypes options))
                                    (mimetype file)
                               then if file_size file >?
                                       or_default default_maxSize
                                         (maxSize options)
                                    then 400 else 500
                               else 400) m).
Proof.
  intros NoReject invalid. unfold invalid.
  destruct (JS.array_includes _ (mimetype file)) eqn:A.
  - destruct (Z.gtb_spec (file_size file)
                (or_default default_maxSize (maxSize options))) as [L|L].
    + rewrite (uploadFile_too_large svc file options w A ltac:(lia)).
      split.
      * split; [intros _; right; lia | intros _; eexists; reflexivity].
      * intros e E. inversion E. eexists; reflexivity.
    + rewrite (uploadFile_valid_run svc file options w A L).
      destruct (reply_upload w (bucketName svc) _ (buffer file) _)
        as [d [err|]|x] eqn:R; [| |now destruct (NoReject _ _ _ _ _ R)].
      * cbv zeta.
        match goal with |- context [if ?b then _ else _] => destruct b end.
        all: split;
          [split; [intros [m E]; discriminate E
                  |intros [E|E]; [discriminate E | lia]]
          |intros e E; inversion E; eexists; reflexivity].
      * split;
          [split; [intros [m E]; discriminate E
                  |intros [E|E]; [discriminate E | lia]]
          |intros e E; discriminate E].
  - rewrite (uploadFile_invalid_type svc file options w A).
    split.
    + split; [intros _; now left | intros _; eexists; reflexivity].
    + intros e E. inversion E. eexists; reflexivity.
Qed.

Lemma uploadFile_status_400_iff_invalid_witness :
  (exists m,
     fst (uploadFile sample_service (sample_file "a.png" "image/png" 6000000)
            no_options (world_failing "Bucket not found"))
     = Threw (HttpError 400 m))
  /\ exists m,
       fst (uploadFile sample_service (sample_file "a.png" "image/png" 10)
              no_options (world_failing "Bucket not found"))
       = Threw (HttpError 500 m).
Proof.
  split.
  - destruct (uploadFile_status_400_iff_invalid sample_service
                (sample_file "a.png" "image/png" 6000000) no_options
                (world_failing "Bucket not found")) as [Iff _].
    + intros b k body o x. discriminate.
    + apply Iff. right. vm_compute. reflexivity.
  - destruct (uploadFile_status_400_iff_invalid sample_service
                (sample_file "a.png" "image/png" 10) no_options
                (world_failing "Bucket not found")) as [_ Status].
    + intros b k body o x. discriminate.
    + destruct (Status (HttpError 500
                          "Failed to upload file: Upload failed: Bucket not found")
                  eq_refl) as [m E].
      exists m. exact (f_equal Threw E).
Defined.

(** X6. After validation, a failure of the backend keeps its text: when the
    backend answers with an error, [uploadFile] raises an error of status
    500 whose message contains the backend's message; when the call rejects
    with an [Error], the raised error's message contains that error's
    message; when it rejects with something that is not an [Error], the
    message is "Failed to upload file: Unknown error". *)
Theorem uploadFile_keeps_backend_text
    (svc : Service) (file : MulterFile) (options : FileUploadOptions)
    (w : World) :
  JS.array_includes (or_default default_allowedTypes (allowedTypes options))
    (mimetype file) = true ->
  file_size file <= or_default default_maxSize (maxSize options) ->
  let answer :=
    reply_upload w (bucketName svc)
      (keyFor (projectName options) (or_default "uploads" (folder options))
         (fileNameFor (Date_now w) (Math_random_toString36 w)
            (originalname file)))
      (buffer file)
      {| contentType := mimetype file; cacheControl := "3600";
         upsert := false |} in
  (forall d err, answer = Resolved d (Some err) ->
     exists m, fst (uploadFile svc file options w) = Threw (HttpError 500 m)
               /\ JS.includes m (se_message err) = true)
  /\ (forall x, answer = Rejected x -> instanceof_Error x = true ->
        exists e, fst (uploadFile svc file options w) = Threw e
                  /\ JS.includes (error_message e) (error_message x) = true)
  /\ (forall x, answer = Rejected x -> instanceof_Error x = false ->
        fst (uploadFile svc file options w) =
          Threw (createError 500 "Failed to upload file: Unknown error")).
Proof.
  intros A L answer. unfold answer.
  rewrite (uploadFile_valid_run svc file options w A L).
  split; [|split].
  - intros d err ->. cbv zeta.
    match goal with |- context [if ?b then _ else _] => destruct b end;
      eexists; (split; [reflexivity|]).
    + apply includes_suffix.
    + apply (includes_suffix "Failed to upload file: Upload failed: ").
  - intros x -> I. rewrite I. cbn [andb fst].
    match goal with |- context [if ?b then _ else _] => destruct b end;
      eexists; (split; [reflexivity|]).
    + apply includes_self.
    + apply includes_suffix.
  - intros x -> I. rewrite I. reflexivity.
Qed.

Lemma uploadFile_keeps_backend_text_witness :
  (exists m,
     fst (uploadFile sample_service (sample_file "a.png" "image/png" 10)
            no_options (world_failing "The resource already exists"))
       = Threw (HttpError 500 m)
     /\ JS.includes m "The resource already exists" = true)
  /\ exists e,
       fst (uploadFile sample_service (sample_file "a.png" "image/png" 10)
              no_options world_unreachable) = Threw e
       /\ JS.includes (error_message e) "fetch failed" = true.
Proof.
  destruct (uploadFile_keeps_backend_text sample_service
              (sample_file "a.png" "image/png" 10) no_options
              (world_failing "The resource already exists"))
    as [OnError _]; [reflexivity | vm_compute; discriminate |].
  destruct (uploadFile_keeps_backend_text sample_service
              (sample_file "a.png" "image/png" 10) no_options
              world_unreachable)
    as [_ [OnReject _]]; [reflexivity | vm_compute; discriminate |].
  split.
  - apply (OnError None {| se_message := "The resource already exists" |}).
    reflexivity.
  - apply (OnReject (NativeError "TypeError" "fetch failed")); reflexivity.
Defined.

(** X7. When validation passes and the backend accepts the upload,
    [uploadFile] returns a result whose key is the key that was sent, whose
    bucket is the configured one, whose size is the file's, and whose url is
    what [getPublicUrl] gives for that key. *)
Theorem uploadFile_result_echoes_request
    (svc : Service) (file : MulterFile) (options : FileUploadOptions)
    (w : World) (d : option UploadData) :
  JS.array_includes (or_default default_allowedTypes (allowedTypes options))
    (mimetype file) = true ->
  file_size file <= or_default default_maxSize (maxSize options) ->
  reply_upload w (bucketName svc)
    (keyFor (projectName options) (or_default "uploads" (folder options))
       (fileNameFor (Date_now w) (Math_random_toString36 w)
          (originalname file)))
    (buffer file)
    {| contentType := mimetype file; cacheControl := "3600";
       upsert := false |} = Resolved d None ->
  exists r,
    fst (uploadFile svc file options w) = Returned r
    /\ requests (snd (uploadFile svc file options w)) =
         [Upload (bucketName svc) (key r) (buffer file)
            {| contentType := mimetype file; cacheControl := "3600";
               upsert := false |}]
    /\ bucket r = bucketName svc
    /\ size r = file_size file
    /\ (forall w', fst (getPublicUrl svc (key r) w') = Returned (url r)).
Proof.
  intros A L R.
  rewrite (uploadFile_valid_run svc file options w A L), R.
  eexists. repeat split.
Qed.

Lemma uploadFile_result_echoes_request_witness :
  exists r,
    fst (uploadFile sample_service (sample_file "photo.png" "image/png" 10)
           {| folder := None; allowedTypes := None; maxSize := None;
              projectName := Some "Demo" |} (world_listing [])) = Returned r
    /\ key r = "demo/uploads/1700000000000-4fzyo82mvyr.png"
    /\ size r = 10.
Proof.
  destruct (uploadFile_result_echoes_request sample_service
              (sample_file "photo.png" "image/png" 10)
              {| folder := None; allowedTypes := None; maxSize := None;
                 projectName := Some "Demo" |} (world_listing [])
              (Some {| uploaded_path :=
                         "demo/uploads/1700000000000-4fzyo82mvyr.png" |}))
    as [r [Run [_ [_ [Sz _]]]]];
    [reflexivity | vm_compute; discriminate | reflexivity |].
  exists r. split; [exact Run|].
  split; [|exact Sz].
  vm_compute in Run. inversion Run. reflexivity.
Defined.

(** X8. Whatever its inputs and whatever the backend does, [uploadFile]
    sends either nothing or one upload request, to the configured bucket,
    with the file's bytes, its MIME type as content type, cache control
    "3600" and [upsert] false: it never overwrites and never retries. *)
Theorem uploadFile_sends_at_most_one_non_overwriting_upload
    (svc : Service) (file : MulterFile) (options : FileUploadOptions)
    (w : World) :
  requests (snd (uploadFile svc file options w)) = []
  \/ exists key,
       requests (snd (uploadFile svc file options w)) =
         [Upload (bucketName svc) key (buffer file)
            {| contentType := mimetype file; cacheControl := "3600";
               upsert := false |}].
Proof.
  destruct (JS.array_includes
              (or_default default_allowedTypes (allowedTypes options))
              (mimetype file)) eqn:A.
  - destruct (Z.gtb_spec (file_size file)
                (or_default default_maxSize (maxSize options))) as [L|L].
    + left. now rewrite (uploadFile_too_large svc file options w A ltac:(lia)).
    + right. eexists.
      exact (proj1 (uploadFile_sends svc file options w A L)).
  - left. now rewrite (uploadFile_invalid_type svc file options w A).
Qed.

(** ** Where an uploaded key lies *)

Lemma list_ascii_app a b :
  list_ascii_of_string (a ++ b) =
    (list_ascii_of_string a ++ list_ascii_of_string b)%list.
Proof. induction a as [|c a IH]; simpl; [reflexivity | now rewrite IH]. Qed.

Lemma no_unit_app c a b :
  no_unit c (a ++ b) <-> no_unit c a /\ no_unit c b.
Proof.
  unfold no_unit. rewrite list_ascii_app, in_app_iff. tauto.
Qed.

Lemma in_substring c s : forall n m,
  In c (list_ascii_of_string (String.substring n m s)) ->
  In c (list_ascii_of_string s).
Proof.
  induction s as [|a s IH]; intros [|n] [|m]; simpl; try tauto.
  - intros [E|I]; [now left | right; exact (IH _ _ I)].
  - intros I. right. exact (IH _ _ I).
  - intros I. right. exact (IH _ _ I).
Qed.

Lemma no_unit_substring c s a b :
  no_unit c s -> no_unit c (JS.substring s a b).
Proof. intros N I. apply N. exact (in_substring _ _ _ _ I). Qed.

Lemma no_slash_uint d :
  no_unit "/"%char (NilEmpty.string_of_uint d).
Proof.
  induction d; simpl; try apply no_unit_nil;
    (apply no_unit_String; [reflexivity | assumption]).
Qed.

Lemma no_slash_show_int n : no_unit "/"%char (JS.show_int n).
Proof.
  unfold JS.show_int, NilZero.string_of_int, NilZero.string_of_uint.
  destruct (Z.to_int n) as [d|d]; [|apply no_unit_String; [reflexivity|]];
    (destruct d; try (apply no_unit_String; [reflexivity | apply no_unit_nil]);
     apply (no_slash_uint (_ _))).
Qed.

Lemma no_slash_fileName ts r n :
  no_unit "/"%char r -> no_unit "/"%char n ->
  no_unit "/"%char (fileNameFor ts r n).
Proof.
  intros Hr Hn. unfold fileNameFor.
  destruct (pop_split_shape n) as [ext [-> [_ Shape]]].
  cbn [JS.interpolate].
  assert (He : no_unit "/" ext).
  { destruct Shape as [<-|[stem E]]; [exact Hn|].
    rewrite E in Hn. apply no_unit_app in Hn as [_ Hn].
    now apply no_unit_app in Hn as [_ Hn]. }
  repeat (apply no_unit_app; split); try assumption.
  - apply no_slash_show_int.
  - apply no_unit_String; [reflexivity | apply no_unit_nil].
  - now apply no_unit_substring.
  - apply no_unit_String; [reflexivity | apply no_unit_nil].
Qed.

Lemma uploadFile_returned svc file options w r :
  fst (uploadFile svc file options w) = Returned r ->
  key r = keyFor (projectName options) (or_default "uploads" (folder options))
            (fileNameFor (Date_now w) (Math_random_toString36 w)
               (originalname file)).
Proof.
  destruct (JS.array_includes
              (or_default default_allowedTypes (allowedTypes options))
              (mimetype file)) eqn:A.
  - destruct (Z.gtb_spec (file_size file)
                (or_default default_maxSize (maxSize options))) as [L|L].
    + rewrite (uploadFile_too_large svc file options w A ltac:(lia)).
      discriminate.
    + rewrite (uploadFile_valid_run svc file options w A L).
      destruct (reply_upload w (bucketName svc) _ (buffer file) _)
        as [d [err|]|x]; cbn; intros E; inversion E; reflexivity.
  - rewrite (uploadFile_invalid_type svc file options w A). discriminate.
Qed.

Lemma fileExists_request svc k w :
  requests (snd (fileExists svc k w)) =
    [ListObjects (bucketName svc) (parentOf k) (search_for (leafOf k))].
Proof.
  unfold fileExists, try_catch, bind, await.
  destruct (reply_list w (bucketName svc) (parentOf k)
              (search_for (leafOf k))) as [[fs|] [err|]|x]; reflexivity.
Qed.

Lemma listProjectFiles_request svc p f w :
  requests (snd (listProjectFiles svc p f w)) =
    [ListObjects (bucketName svc) (prefixFor p f) list_options].
Proof.
  unfold listProjectFiles, try_catch, bind, await.
  destruct (reply_list w (bucketName svc) (prefixFor p f) list_options)
    as [[fs|] [err|]|x]; reflexivity.
Qed.

(** X9. Take an upload that returned, made with a non-empty project name
    and a folder that is not the empty string, of a file whose original
    name has no slash (the random source giving no slash either).  Then the
    parent of the returned key is the prefix [listProjectFiles] builds for
    that project and folder ("uploads" when no folder was given): the
    existence check for the key and the listing of the project folder
    address the same path. *)
Theorem uploaded_key_lies_in_listed_folder
    (svc : Service) (file : MulterFile) (options : FileUploadOptions)
    (w w' : World) (r : UploadResult) (p : string) :
  fst (uploadFile svc file options w) = Returned r ->
  projectName options = Some p -> p <> "" ->
  folder options <> Some "" ->
  no_unit "/"%char (originalname file) ->
  no_unit "/"%char (Math_random_toString36 w) ->
  let dir := Some (or_default "uploads" (folder options)) in
  parentOf (key r) = prefixFor p dir
  /\ requests (snd (fileExists svc (key r) w')) =
       [ListObjects (bucketName svc) (prefixFor p dir)
          (search_for (fileNameFor (Date_now w) (Math_random_toString36 w)
                         (originalname file)))]
  /\ requests (snd (listProjectFiles svc p dir w')) =
       [ListObjects (bucketName svc) (prefixFor p dir) list_options].
Proof.
  intros Run P NE F Hn Hr dir.
  pose proof (no_slash_fileName (Date_now w) _ _ Hr Hn) as N.
  rewrite (uploadFile_returned _ _ _ _ _ Run), P.
  set (fileName := fileNameFor _ _ _) in *.
  set (f := or_default "uploads" (folder options)).
  assert (Ff : f <> "")
    by (unfold f; destruct (folder options) as [[|]|]; simpl; congruence).
  assert (K : keyFor (Some p) f fileName =
              (prefixFor p dir ++ "/" ++ fileName)%string).
  { unfold keyFor, prefixFor, dir. fold f.
    destruct p as [|a p]; [now destruct NE|].
    destruct f as [|b f']; [now destruct Ff|].
    cbn [truthy]. now rewrite !append_assoc_s. }
  rewrite fileExists_request, listProjectFiles_request, K.
  destruct (parent_leaf_of_path (prefixFor p dir) fileName N) as [Pa Le].
  rewrite Pa, Le. repeat split.
Qed.

Lemma uploaded_key_lies_in_listed_folder_witness :
  parentOf "demo/uploads/1700000000000-4fzyo82mvyr.png" = "demo/uploads"
  /\ prefixFor "Demo" (Some "uploads") = "demo/uploads".
Proof.
  pose (opts := {| folder := None; allowedTypes := None; maxSize := None;
                   projectName := Some "Demo" |}).
  pose (f := sample_file "photo.png" "image/png" 10).
  destruct (uploaded_key_lies_in_listed_folder sample_service f opts
              (world_listing []) (world_listing [])
              {| url := publicUrl sample_service "project-assets"
                          "demo/uploads/1700000000000-4fzyo82mvyr.png";
                 key := "demo/uploads/1700000000000-4fzyo82mvyr.png";
                 bucket := "project-assets"; size := 10 |} "Demo")
    as [Parent _].
  - reflexivity.
  - reflexivity.
  - discriminate.
  - discriminate.
  - unfold no_unit. vm_compute. intuition discriminate.
  - unfold no_unit. vm_compute. intuition discriminate.
  - split; [exact Parent | reflexivity].
Defined.

(** ** deleteFile *)

(** X10. [deleteFile] sends one request, to remove exactly the given key
    from the configured bucket.  It returns exactly when the backend answers
    without an error; in every other case (an error in the answer, or a
    rejected call) it raises the error of status 500 with the fixed message
    "Failed to delete file from storage". *)
Theorem deleteFile_outcome (svc : Service) (key : string) (w : World) :
  requests (snd (deleteFile svc key w)) = [Remove (bucketName svc) [key]]
  /\ (fst (deleteFile svc key w) = Returned tt <->
      exists d, reply_remove w (bucketName svc) [key] = Resolved d None)
  /\ (fst (deleteFile svc key w) = Returned tt
      \/ fst (deleteFile svc key w) =
           Threw (createError 500 "Failed to delete file from storage")).
Proof.
  unfold deleteFile, try_catch, bind, await.
  destruct (reply_remove w (bucketName svc) [key]) as [d [err|]|x]; cbn.
  - split; [reflexivity|]. split; [|now right].
    split; [discriminate | intros [d' E]; discriminate E].
  - split; [reflexivity|]. split; [|now left].
    split; [intros _; now exists d | reflexivity].
  - split; [reflexivity|]. split; [|now right].
    split; [discriminate | intros [d' E]; discriminate E].
Qed.

(** ** Signed URLs *)

(** X11. [getSignedUploadUrl] returns the backend's [signedUrl] exactly
    when the answer has data and no error; in every other case (an error,
    an answer with neither data nor error, a rejected call) it raises the
    error of status 500 "Failed to generate signed upload URL". *)
Theorem getSignedUploadUrl_outcome
    (svc : Service) (key contentType : string) (expiresIn : option Z)
    (w : World) :
  let answer := reply_createSignedUploadUrl w (bucketName svc) key in
  (forall u,
     fst (getSignedUploadUrl svc key contentType expiresIn w) = Returned u <->
     exists d, answer = Resolved (Some d) None /\ signedUrl d = u)
  /\ (forall e,
        fst (getSignedUploadUrl svc key contentType expiresIn w) = Threw e ->
        e = createError 500 "Failed to generate signed upload URL").
Proof.
  intros answer. unfold answer, getSignedUploadUrl, try_catch, bind, await.
  destruct (reply_createSignedUploadUrl w (bucketName svc) key)
    as [[d|] [err|]|x]; cbn; split.
  all: try (intros e E; inversion E; reflexivity).
  all: intros u; split;
    [intros E; try discriminate E | intros [d' [E U]]; try discriminate E].
  - inversion E. now exists d.
  - inversion E. now subst.
Qed.

Lemma getSignedUploadUrl_outcome_witness :
  fst (getSignedUploadUrl sample_service "proj/uploads/a.png" "image/png"
         None (world_listing [])) = Returned "https://signed/proj/uploads/a.png"
  /\ fst (getSignedUploadUrl sample_service "proj/uploads/a.png" "image/png"
            None (world_failing "denied"))
     = Threw (createError 500 "Failed to generate signed upload URL").
Proof.
  split.
  - destruct (getSignedUploadUrl_outcome sample_service "proj/uploads/a.png"
                "image/png" None (world_listing [])) as [Ret _].
    apply Ret.
    exists {| signedUrl := "https://signed/proj/uploads/a.png" |}.
    split; reflexivity.
  - destruct (getSignedUploadUrl_outcome sample_service "proj/uploads/a.png"
                "image/png" None (world_failing "denied")) as [_ Thr].
    exact (f_equal Threw
             (Thr (HttpError 500 "Failed to generate signed upload URL")
                  eq_refl)).
Defined.

(** X12. [getSignedDownloadUrl] sends one request that carries [expiresIn],
    3600 when the argument is absent, so that an absent argument and the
    argument 3600 behave alike.  It returns the backend's [signedUrl]
    exactly when the answer has data and no error, and otherwise raises the
    error of status 500 "Failed to generate signed download URL". *)
Theorem getSignedDownloadUrl_outcome
    (svc : Service) (key : string) (expiresIn : option Z) (w : World) :
  let seconds := match expiresIn with Some s => s | None => 3600 end in
  let answer := reply_createSignedUrl w (bucketName svc) key seconds in
  requests (snd (getSignedDownloadUrl svc key expiresIn w)) =
    [CreateSignedUrl (bucketName svc) key seconds]
  /\ getSignedDownloadUrl svc key None w
     = getSignedDownloadUrl svc key (Some 3600) w
  /\ (forall u,
        fst (getSignedDownloadUrl svc key expiresIn w) = Returned u <->
        exists d, answer = Resolved (Some d) None /\ signedUrl d = u)
  /\ (forall e,
        fst (getSignedDownloadUrl svc key expiresIn w) = Threw e ->
        e = createError 500 "Failed to generate signed download URL").
Proof.
  intros seconds answer.
  assert (S : or_default 3600 expiresIn = seconds)
    by (unfold seconds; now destruct expiresIn).
  unfold answer, getSignedDownloadUrl, try_catch, bind, await.
  rewrite S.
  split; [|split; [reflexivity|]].
  - destruct (reply_createSignedUrl w (bucketName svc) key seconds)
      as [[d|] [err|]|x]; reflexivity.
  - destruct (reply_createSignedUrl w (bucketName svc) key seconds)
      as [[d|] [err|]|x]; cbn; split.
    all: try (intros e E; inversion E; reflexivity).
    all: intros u; split;
      [intros E; try discriminate E | intros [d' [E U]]; try discriminate E].
    + inversion E. now exists d.
    + inversion E. now subst.
Qed.

Lemma getSignedDownloadUrl_outcome_witness :
  fst (getSignedDownloadUrl sample_service "proj/uploads/a.png" (Some 60)
         (world_listing [])) = Returned "https://signed/proj/uploads/a.png"
  /\ fst (getSignedDownloadUrl sample_service "proj/uploads/a.png" (Some 60)
            world_unreachable)
     = Threw (createError 500 "Failed to generate signed download URL").
Proof.
  split.
  - destruct (getSignedDownloadUrl_outcome sample_service "proj/uploads/a.png"
                (Some 60) (world_listing [])) as [_ [_ [Ret _]]].
    apply Ret.
    exists {| signedUrl := "https://signed/proj/uploads/a.png" |}.
    split; reflexivity.
  - destruct (getSignedDownloadUrl_outcome sample_service "proj/uploads/a.png"
                (Some 60) world_unreachable) as [_ [_ [_ Thr]]].
    exact (f_equal Threw
             (Thr (HttpError 500 "Failed to generate signed download URL")
                  eq_refl)).
Defined.

(** ** getFileMetadata *)

(** X13. [getFileMetadata] returns exactly when the backend answers without
    an error with a non-empty array, and what it returns is read off the
    first element alone: its name, its update time, and the size and MIME
    type of its metadata (absent when the element has no metadata).  The
    name of that element is not compared with the key. *)
Theorem getFileMetadata_reads_first_entry
    (svc : Service) (key : string) (w : World) :
  let answer :=
    reply_list w (bucketName svc) (parentOf key) (search_for (leafOf key)) in
  forall m,
    fst (getFileMetadata svc key w) = Returned m <->
    exists first others,
      answer = Resolved (Some (first :: others)) None
      /\ m = {| md_name := name first;
                md_size := match metadata first with
                           | Some i => meta_size i
                           | None => None
                           end;
                md_lastModified := updated_at first;
                md_contentType := match metadata first with
                                  | Some i => meta_mimetype i
                                  | None => None
                                  end |}.
Proof.
  intros answer m. unfold answer, getFileMetadata, try_catch, bind, await.
  destruct (reply_list w (bucketName svc) (parentOf key)
              (search_for (leafOf key))) as [[[|f fs]|] [err|]|x]; cbn.
  all: split; [intros E; try discriminate E
              | intros [f' [fs' [E M]]]; try discriminate E].
  - inversion E. now exists f, fs.
  - inversion E. now subst.
Qed.

Lemma getFileMetadata_reads_first_entry_witness :
  fst (getFileMetadata sample_service "proj/uploads/a.png"
         (world_listing [sample_object "other.png"; sample_object "a.png"]))
  = Returned {| md_name := "other.png"; md_size := Some 10;
                md_lastModified := "2024-01-01T00:00:00Z";
                md_contentType := Some "image/png" |}.
Proof.
  apply (getFileMetadata_reads_first_entry sample_service "proj/uploads/a.png"
           (world_listing [sample_object "other.png"; sample_object "a.png"])).
  exists (sample_object "other.png"), [sample_object "a.png"].
  split; reflexivity.
Defined.

(** X14. For one key and one state of the backend, [fileExists] returns
    [true] exactly when [getFileMetadata] returns; both send the same
    request. *)
Theorem fileExists_true_iff_metadata_returns
    (svc : Service) (key : string) (w : World) :
  (fst (fileExists svc key w) = Returned (JsBoolean true) <->
   exists m, fst (getFileMetadata svc key w) = Returned m)
  /\ requests (snd (fileExists svc key w))
     = requests (snd (getFileMetadata svc key w)).
Proof.
  unfold fileExists, getFileMetadata, try_catch, bind, await.
  destruct (reply_list w (bucketName svc) (parentOf key)
              (search_for (leafOf key))) as [[[|f fs]|] [err|]|x];
    cbn -[Z.of_nat Z.gtb]; try rewrite nonempty_length.
  all: split; [|reflexivity].
  all: split; [intros E; try discriminate E
              | intros [m E]; try discriminate E].
  - eexists; reflexivity.
  - reflexivity.
Qed.

(** ** listProjectFiles *)

(** X15. [listProjectFiles] returns exactly when the backend answers
    without an error; the result then has one entry per listed object, and
    is empty when the answer carries no array.  In every other case it
    raises the error of status 500 "Failed to list project files". *)
Theorem listProjectFiles_outcome
    (svc : Service) (projectName : string) (folder : option string)
    (w : World) :
  let prefix := prefixFor projectName folder in
  let answer := reply_list w (bucketName svc) prefix list_options in
  (forall entries,
     fst (listProjectFiles svc projectName folder w) = Returned entries <->
     exists d, answer = Resolved d None
               /\ entries = map (listed prefix)
                              (match d with Some files => files | None => [] end))
  /\ (forall d entries,
        answer = Resolved d None ->
        fst (listProjectFiles svc projectName folder w) = Returned entries ->
        List.length entries
        = List.length (match d with Some files => files | None => [] end))
  /\ (forall e,
        fst (listProjectFiles svc projectName folder w) = Threw e ->
        e = createError 500 "Failed to list project files").
Proof.
  intros prefix answer.
  unfold answer, prefix, listProjectFiles, try_catch, bind, await.
  destruct (reply_list w (bucketName svc) (prefixFor projectName folder)
              list_options) as [d [err|]|x]; cbn.
  - split; [|split].
    + intros entries. split; [discriminate | intros [d' [E _]]; discriminate E].
    + intros d' entries E. discriminate E.
    + intros e E. inversion E. reflexivity.
  - split; [|split].
    + intros entries. split.
      * intros E. inversion E. exists d. split; [reflexivity|].
        now destruct d.
      * intros [d' [E ->]]. inversion E; subst d'. now destruct d.
    + intros d' entries E R. inversion E; subst d'. inversion R.
      rewrite length_map. now destruct d.
    + intros e E. discriminate E.
  - split; [|split].
    + intros entries. split; [discriminate | intros [d' [E _]]; discriminate E].
    + intros d' entries E. discriminate E.
    + intros e E. inversion E. reflexivity.
Qed.

Lemma listProjectFiles_outcome_witness :
  fst (listProjectFiles sample_service "Proj" None (world_listing []))
    = Returned []
  /\ fst (listProjectFiles sample_service "Proj" None
            (world_failing "Bucket not found"))
     = Threw (createError 500 "Failed to list project files").
Proof.
  split.
  - destruct (listProjectFiles_outcome sample_service "Proj" None
                (world_listing [])) as [Ret _].
    apply Ret. exists (Some []). split; reflexivity.
  - destruct (listProjectFiles_outcome sample_service "Proj" None
                (world_failing "Bucket not found")) as [_ [_ Thr]].
    exact (f_equal Threw
             (Thr (HttpError 500 "Failed to list project files") eq_refl)).
Defined.

(** X16. When the listed objects have names without a slash, every
    returned [Key] splits back into the listing prefix and the object's
    name: [fileExists] and [getFileMetadata] called with a returned key look
    in the listed folder for that name. *)
Theorem listed_keys_split_back
    (svc : Service) (projectName : string) (folder : option string)
    (w : World) (files : list FileObject) :
  reply_list w (bucketName svc) (prefixFor projectName folder) list_options
    = Resolved (Some files) None ->
  Forall (fun f => no_unit "/"%char (name f)) files ->
  exists entries,
    fst (listProjectFiles svc projectName folder w) = Returned entries
    /\ map (fun e => (parentOf (Key e), leafOf (Key e))) entries
       = map (fun f => (prefixFor projectName folder, name f)) files.
Proof.
  intros R F.
  exists (map (listed (prefixFor projectName folder)) files). split.
  - unfold listProjectFiles, try_catch, bind, await. rewrite R. reflexivity.
  - rewrite map_map. apply map_ext_in. intros f I.
    rewrite Forall_forall in F. specialize (F f I).
    unfold listed; cbn [Key].
    destruct (parent_leaf_of_path (prefixFor projectName folder) (name f) F)
      as [-> ->].
    reflexivity.
Qed.

Lemma listed_keys_split_back_witness :
  exists entries,
    fst (listProjectFiles sample_service "Proj" (Some "videos")
           (world_listing [sample_object "a.mp4"])) = Returned entries
    /\ map (fun e => (parentOf (Key e), leafOf (Key e))) entries
       = [("proj/videos", "a.mp4")].
Proof.
  apply (listed_keys_split_back sample_service "Proj" (Some "videos")
           (world_listing [sample_object "a.mp4"]) [sample_object "a.mp4"]).
  - reflexivity.
  - constructor; [|constructor].
    unfold no_unit. vm_compute. intuition discriminate.
Defined.

(** X17. For [listProjectFiles] an empty folder string is the same as no
    folder, and a project name may be given raw or already sanitized: the
    outcome and the trace are the same. *)
Theorem listProjectFiles_same_folder_same_project
    (svc : Service) (projectName : string) (folder : option string)
    (w : World) :
  listProjectFiles svc projectName (Some "") w
    = listProjectFiles svc projectName None w
  /\ listProjectFiles svc (sanitizeProjectName projectName) folder w
     = listProjectFiles svc projectName folder w.
Proof.
  split; [reflexivity|].
  unfold listProjectFiles, prefixFor.
  now rewrite (sanitize_fixed _ (sanitize_in_class projectName)).
Qed.

(** ** Module configuration *)

Lemma truthy_some o s : truthy o = Some s <-> o = Some s /\ s <> "".
Proof.
  destruct o as [[|a t]|]; cbn; split.
  all: try discriminate.
  all: try (intros [E N]; first [discriminate E | inversion E; subst;
                                 now destruct N]).
  - intros E. inversion E. split; [reflexivity | discriminate].
  - intros [E _]. exact E.
Qed.

(** X18. Loading the module gives the exported service exactly when the
    URL and the service key are both set and non-empty and [createClient]
    returns a client for them; the service then has that client and the
    bucket name of the environment, "project-assets" when that is unset or
    empty, so its bucket name is never empty.  When the URL is missing the
    error names the URL, whatever the key; when only the key is missing
    the error names the key; when [createClient] raises, loading raises
    that same error after the three console lines. *)
Theorem load_module_outcome (createClient : ClientFactory) (env : Env) :
  let options :=
    {| auth := {| autoRefreshToken := false; persistSession := false |} |} in
  let bucket_name :=
    match env_SUPABASE_BUCKET_NAME env with
    | None | Some EmptyString => "project-assets"
    | Some b => b
    end in
  (forall svc,
     fst (load_module createClient env) = Returned svc <->
     exists u k client,
       env_SUPABASE_URL env = Some u /\ u <> ""
       /\ env_SUPABASE_SERVICE_ROLE_KEY env = Some k /\ k <> ""
       /\ createClient u k options = Returned client
       /\ svc = {| bucketName := bucket_name; publicUrl := client |})
  /\ (truthy (env_SUPABASE_URL env) = None ->
      load_module createClient env =
        (Threw (NativeError "Error"
                  "SUPABASE_URL environment variable is required"), []))
  /\ (forall u,
        truthy (env_SUPABASE_URL env) = Some u ->
        truthy (env_SUPABASE_SERVICE_ROLE_KEY env) = None ->
        load_module createClient env =
          (Threw (NativeError "Error"
                    "SUPABASE_SERVICE_ROLE_KEY environment variable is required"),
           []))
  /\ (forall u k e,
        truthy (env_SUPABASE_URL env) = Some u ->
        truthy (env_SUPABASE_SERVICE_ROLE_KEY env) = Some k ->
        createClient u k options = Threw e ->
        load_module createClient env =
          (Threw e, [ConsoleLog "Configuring Supabase Storage...";
                     ConsoleLog "Supabase URL:";
                     ConsoleLog "Bucket Name:"]))
  /\ (forall svc,
        fst (load_module createClient env) = Returned svc ->
        bucketName svc <> "").
Proof.
  intros options bucket_name.
  assert (Bn : or_default "project-assets"
                 (truthy (env_SUPABASE_BUCKET_NAME env)) = bucket_name)
    by (unfold bucket_name;
        now destruct (env_SUPABASE_BUCKET_NAME env) as [[|a b]|]).
  assert (Ne : bucket_name <> "")
    by (unfold bucket_name;
        destruct (env_SUPABASE_BUCKET_NAME env) as [[|a b]|]; discriminate).
  unfold load_module, getInstance, new_SupabaseStorageService.
  rewrite Bn. fold options.
  destruct (truthy (env_SUPABASE_URL env)) as [u|] eqn:U.
  - destruct (truthy (env_SUPABASE_SERVICE_ROLE_KEY env)) as [k|] eqn:K.
    + cbn [SUPABASE_URL SUPABASE_SERVICE_ROLE_KEY SUPABASE_BUCKET_NAME].
      pose proof U as U'. pose proof K as K'.
      apply truthy_some in U' as [Eu Nu]. apply truthy_some in K' as [Ek Nk].
      destruct (createClient u k client_options) as [client|e] eqn:C;
        cbn [fst].
      * split; [|split; [|split; [|split]]].
        -- intros svc. split.
           ++ intros E. inversion E. now exists u, k, client.
           ++ intros [u' [k' [client' [Eu' [_ [Ek' [_ [C' ->]]]]]]]].
              assert (u' = u) by congruence. assert (k' = k) by congruence.
              subst u' k'. unfold options in C'. fold client_options in C'.
              congruence.
        -- discriminate.
        -- discriminate.
        -- intros u' k' e Eu' Ek' C'. inversion Eu'. inversion Ek'. subst.
           unfold options in C'. fold client_options in C'. congruence.
        -- intros svc E. inversion E. exact Ne.
      * split; [|split; [|split; [|split]]].
        -- intros svc. split; [discriminate|].
           intros [u' [k' [client' [Eu' [_ [Ek' [_ [C' _]]]]]]]].
           assert (u' = u) by congruence. assert (k' = k) by congruence.
           subst u' k'. unfold options in C'. fold client_options in C'.
           congruence.
        -- discriminate.
        -- discriminate.
        -- intros u' k' e' Eu' Ek' C'. inversion Eu'. inversion Ek'. subst.
           unfold options in C'. fold client_options in C'.
           rewrite C in C'. now inversion C'.
        -- discriminate.
    + split; [|split; [|split; [|split]]].
      * intros svc. split; [discriminate|].
        intros [u' [k' [client' [_ [_ [Ek' [Nk' _]]]]]]].
        assert (T : truthy (env_SUPABASE_SERVICE_ROLE_KEY env) = Some k')
          by now apply truthy_some.
        congruence.
      * discriminate.
      * reflexivity.
      * discriminate.
      * discriminate.
  - split; [|split; [|split; [|split]]].
    + intros svc. split; [discriminate|].
      intros [u' [k' [client' [Eu' [Nu' _]]]]].
      assert (T : truthy (env_SUPABASE_URL env) = Some u')
        by now apply truthy_some.
      congruence.
    + reflexivity.
    + discriminate.
    + discriminate.
    + discriminate.
Qed.

Lemma load_module_outcome_witness :
  (exists svc,
     fst (load_module sample_createClient sample_env) = Returned svc
     /\ bucketName svc = "project-assets")
  /\ load_module sample_createClient
       {| env_SUPABASE_URL := Some "not-a-url";
          env_SUPABASE_SERVICE_ROLE_KEY := Some "service-role-key";
          env_SUPABASE_BUCKET_NAME := None |}
     = (Threw (NativeError "Error" "Invalid supabaseUrl"),
        [ConsoleLog "Configuring Supabase Storage...";
         ConsoleLog "Supabase URL:";
         ConsoleLog "Bucket Name:"]).
Proof.
  split.
  - destruct (load_module_outcome sample_createClient sample_env)
      as [Iff _].
    eexists. split.
    + apply Iff.
      exists "https://demo.supabase.co", "service-role-key".
      eexists. split; [reflexivity|]. split; [discriminate|].
      split; [reflexivity|]. split; [discriminate|].
      split; reflexivity.
    + reflexivity.
  - destruct (load_module_outcome sample_createClient
                {| env_SUPABASE_URL := Some "not-a-url";
                   env_SUPABASE_SERVICE_ROLE_KEY := Some "service-role-key";
                   env_SUPABASE_BUCKET_NAME := None |})
      as [_ [_ [_ [Raises _]]]].
    apply (Raises "not-a-url" "service-role-key"); reflexivity.
Defined.

(** ** Bucket provisioning *)

Lemma some_named_spec bs n :
  existsb (fun b => String.eqb (bucket_name b) n) bs = true
  <-> In n (map bucket_name bs).
Proof.
  rewrite existsb_exists, in_map_iff. split.
  - intros [b [I E]]. apply String.eqb_eq in E. now exists b.
  - intros [b [E I]]. exists b. split; [exact I | now apply String.eqb_eq].
Qed.

(** X19. [initializeBucket] never raises.  It first lists the buckets; it
    then asks for the configured bucket to be created exactly when the
    listing came back without an error and does not name that bucket (an
    answer with no array counts as not naming it), and in that case the
    bucket is requested public, with a size limit of 52428800 bytes and
    seven allowed MIME types.  Otherwise the listing is its only request. *)
Theorem initializeBucket_outcome (svc : Service) (w : BucketWorld) :
  let missing :=
    exists d, reply_listBuckets w = Resolved d None
              /\ (forall bs, d = Some bs ->
                    ~ In (bucketName svc) (map bucket_name bs)) in
  fst (initializeBucket svc w) = Returned tt
  /\ (missing ->
      bucket_requests (snd (initializeBucket svc w)) =
        [ListBuckets;
         CreateBucket (bucketName svc)
           {| public := true; fileSizeLimit := 52428800;
              allowedMimeTypes :=
                ["image/jpeg"; "image/png"; "image/gif"; "image/webp";
                 "video/mp4"; "video/webm"; "video/quicktime"] |}])
  /\ (~ missing ->
      bucket_requests (snd (initializeBucket svc w)) = [ListBuckets]).
Proof.
  intros missing. unfold missing.
  unfold initializeBucket, b_try_catch, b_bind, b_await, b_emit.
  destruct (reply_listBuckets w) as [d [err|]|x]; cbn.
  - split; [reflexivity|]. split; [intros [d' [E _]]; discriminate E|].
    reflexivity.
  - destruct d as [bs|]; cbn.
    + destruct (existsb _ bs) eqn:X; cbn.
      * split; [reflexivity|]. split; [|reflexivity].
        intros [d' [E N]]. inversion E; subst d'.
        destruct (N bs eq_refl). now apply some_named_spec.
      * assert (Absent : ~ In (bucketName svc) (map bucket_name bs)).
        { intros I. apply some_named_spec in I. congruence. }
        destruct (reply_createBucket w (bucketName svc) bucket_options)
          as [c [cerr|]|cx]; cbn.
        all: split; [reflexivity|]; split; [reflexivity|].
        all: intros N; destruct N; exists (Some bs);
          (split; [reflexivity|]); intros bs' E; now inversion E; subst.
    + destruct (reply_createBucket w (bucketName svc) bucket_options)
        as [c [cerr|]|cx]; cbn.
      all: split; [reflexivity|]; split; [reflexivity|].
      all: intros N; destruct N; exists None;
        (split; [reflexivity|]); intros bs' E; discriminate E.
  - split; [reflexivity|]. split; [intros [d' [E _]]; discriminate E|].
    reflexivity.
Qed.

Lemma initializeBucket_outcome_witness :
  bucket_requests (snd (initializeBucket sample_service
                          (buckets_world ["other"]))) =
    [ListBuckets; CreateBucket "project-assets" bucket_options]
  /\ bucket_requests (snd (initializeBucket sample_service
                             (buckets_world ["other"; "project-assets"]))) =
       [ListBuckets].
Proof.
  split.
  - destruct (initializeBucket_outcome sample_service
                (buckets_world ["other"])) as [_ [Create _]].
    apply Create.
    exists (Some [{| bucket_name := "other" |}]). split; [reflexivity|].
    intros bs E. inversion E. simpl. intros [F|[]]. discriminate F.
  - destruct (initializeBucket_outcome sample_service
                (buckets_world ["other"; "project-assets"])) as [_ [_ Keep]].
    apply Keep.
    intros [d [E N]]. inversion E; subst d.
    apply (N _ eq_refl). simpl. right. left. reflexivity.
Defined.

(** X20. Whatever [uploadFile] sends under its default validation (no
    [allowedTypes] and no [maxSize] option) fits the bucket
    [initializeBucket] creates: the MIME type is among the bucket's allowed
    types and the size is within the bucket's limit. *)
Theorem default_upload_fits_created_bucket
    (svc : Service) (file : MulterFile) (options : FileUploadOptions)
    (w : World) :
  allowedTypes options = None -> maxSize options = None ->
  requests (snd (uploadFile svc file options w)) <> [] ->
  In (mimetype file) (allowedMimeTypes bucket_options)
  /\ file_size file <= fileSizeLimit bucket_options.
Proof.
  intros T S Sent_.
  destruct (JS.array_includes
              (or_default default_allowedTypes (allowedTypes options))
              (mimetype file)) eqn:A.
  - destruct (Z.gtb_spec (file_size file)
                (or_default default_maxSize (maxSize options))) as [L|L].
    + rewrite (uploadFile_too_large svc file options w A ltac:(lia)) in Sent_.
      now destruct Sent_.
    + rewrite T in A. rewrite S in L. split.
      * unfold or_default, JS.array_includes in A. apply existsb_exists in A.
        destruct A as [t [I E]]. apply String.eqb_eq in E. subst t.
        cbn in I |- *. tauto.
      * unfold or_default, default_maxSize in L. cbn. lia.
  - rewrite (uploadFile_invalid_type svc file options w A) in Sent_.
    now destruct Sent_.
Qed.

Lemma default_upload_fits_created_bucket_witness :
  In "image/png" (allowedMimeTypes bucket_options)
  /\ 10 <= fileSizeLimit bucket_options.
Proof.
  apply (default_upload_fits_created_bucket sample_service
           (sample_file "a.png" "image/png" 10) no_options (world_listing []));
    [reflexivity | reflexivity | discriminate].
Defined.

(** ** One bucket, one request *)

(** X21. Every method sends at most one request per call and never
    addresses a bucket other than the configured one, whatever its
    arguments and whatever the backend answers; [getPublicUrl] and the two
    folder methods send nothing and return. *)
Theorem methods_are_single_tenant (svc : Service) (w : World) :
  (forall file options, single_tenant svc (snd (uploadFile svc file options w)))
  /\ (forall key, single_tenant svc (snd (deleteFile svc key w)))
  /\ (forall key ct e,
        single_tenant svc (snd (getSignedUploadUrl svc key ct e w)))
  /\ (forall key e, single_tenant svc (snd (getSignedDownloadUrl svc key e w)))
  /\ (forall key, single_tenant svc (snd (fileExists svc key w)))
  /\ (forall key, single_tenant svc (snd (getFileMetadata svc key w)))
  /\ (forall p f, single_tenant svc (snd (listProjectFiles svc p f w)))
  /\ (forall key, requests (snd (getPublicUrl svc key w)) = [])
  /\ (forall p, fst (createProjectFolders svc p w) = Returned tt
                /\ requests (snd (createProjectFolders svc p w)) = [])
  /\ (forall p v, fst (createVideoFolder svc p v w) = Returned tt
                  /\ requests (snd (createVideoFolder svc p v w)) = []).
Proof.
  repeat split.
  - destruct (JS.array_includes
                (or_default default_allowedTypes (allowedTypes options))
                (mimetype file)) eqn:A.
    + destruct (Z.gtb_spec (file_size file)
                  (or_default default_maxSize (maxSize options))) as [L|L].
      * rewrite (uploadFile_too_large svc file options w A ltac:(lia)).
        simpl; lia.
      * rewrite (proj1 (uploadFile_sends svc file options w A L)).
        simpl; lia.
    + rewrite (uploadFile_invalid_type svc file options w A). simpl; lia.
  - destruct (JS.array_includes
                (or_default default_allowedTypes (allowedTypes options))
                (mimetype file)) eqn:A.
    + destruct (Z.gtb_spec (file_size file)
                  (or_default default_maxSize (maxSize options))) as [L|L].
      * rewrite (uploadFile_too_large svc file options w A ltac:(lia)).
        constructor.
      * rewrite (proj1 (uploadFile_sends svc file options w A L)).
        now repeat constructor.
    + rewrite (uploadFile_invalid_type svc file options w A). constructor.
  - unfold deleteFile, try_catch, bind, await.
    destruct (reply_remove w (bucketName svc) [key0]) as [d [err|]|x];
      simpl; lia.
  - unfold deleteFile, try_catch, bind, await.
    destruct (reply_remove w (bucketName svc) [key0]) as [d [err|]|x];
      now repeat constructor.
  - unfold getSignedUploadUrl, try_catch, bind, await.
    destruct (reply_createSignedUploadUrl w (bucketName svc) key0)
      as [[d|] [err|]|x]; simpl; lia.
  - unfold getSignedUploadUrl, try_catch, bind, await.
    destruct (reply_createSignedUploadUrl w (bucketName svc) key0)
      as [[d|] [err|]|x]; now repeat constructor.
  - rewrite getSignedDownloadUrl_forwards_expiresIn. simpl; lia.
  - rewrite getSignedDownloadUrl_forwards_expiresIn. now repeat constructor.
  - rewrite fileExists_request. simpl; lia.
  - rewrite fileExists_request. now repeat constructor.
  - unfold getFileMetadata, try_catch, bind, await.
    destruct (reply_list w (bucketName svc) (parentOf key0)
                (search_for (leafOf key0))) as [[[|f fs]|] [err|]|x];
      simpl; lia.
  - unfold getFileMetadata, try_catch, bind, await.
    destruct (reply_list w (bucketName svc) (parentOf key0)
                (search_for (leafOf key0))) as [[[|f fs]|] [err|]|x];
      now repeat constructor.
  - rewrite listProjectFiles_request. simpl; lia.
  - rewrite listProjectFiles_request. now repeat constructor.
Qed.
